(** * Local Inventory Finder: search, suggestion and product-detail routes

    A shallow embedding of

      - [src/lib/utils.ts]: [calculateDistance], [toRadians],
        [generateSearchSuggestions], [BYRON_BAY_COORDS];
      - [src/app/api/search/route.ts]: the search handler and the
        suggestions handler that follows it, with their zod schemas;
      - [src/app/api/products/[id]/route.ts]: the product detail handler.

    Conventions of the model.

      - A JavaScript [number] that is finite is a real number ([R]); the
        rounding error of binary64 arithmetic is outside the model.  The
        values [NaN] and [±Infinity], which string coercion can produce, are
        kept apart in the type [number].
      - The distance of the model is therefore always a number.  In
        binary64 the haversine term of two nearly antipodal points can
        exceed 1 by a rounding error, and the distance is then [NaN]: the
        test [distance > radius] is false for it and the search route keeps
        the row.  What is stated of a computed distance is stated as the
        comparison the code performs (is not greater than the radius, is
        not nearer than its predecessor), which holds of such a row as
        well; no closed form of the distance is claimed.
      - A JavaScript string is a [string] whose characters stand for UTF-16
        code units below 256.  Lower-casing maps one such code unit to one
        code unit; beyond them [toLowerCase] can lengthen a string, so no
        statement relies on the length of a lower-cased string.
      - Reading a number from a string gives the exact decimal value: there
        is no rounding to the nearest binary64 value and no overflow to
        [±Infinity].
      - [URLSearchParams.get] answers [null] for an absent key; [null] is
        [None] of an [option string] and is never confused with
        [undefined].
      - The Prisma client is an in-memory table with two fault switches: a
        read or a write can throw.  Exceptions are values of [Exn] threaded
        through the [result] monad; [try]/[catch] is a [match]. *)

From Stdlib Require Import Reals Lra Lia ZArith List String Ascii Bool.
From Stdlib Require Import Machin Sorted Permutation DecimalString.
Import ListNotations.

Local Open Scope R_scope.

(** ** JavaScript numbers *)

Module JS.

(** A [number]: not-a-number, an infinity, or a finite value. *)
Inductive number : Type :=
| NaN : number
| Infinity (negative : bool) : number
| Finite (r : R) : number.

(** Truthiness of a number: [0] and [NaN] are falsy. *)
Definition truthy (x : number) : bool :=
  match x with
  | NaN => false
  | Infinity _ => true
  | Finite r => if Req_dec_T r 0 then false else true
  end.

(** [x < c] and [x > c] against a finite constant, as [<] and [>] of the
    language: any comparison with [NaN] is false. *)
Definition ltConst (x : number) (c : R) : bool :=
  match x with
  | NaN => false
  | Infinity negative => negative
  | Finite r => if Rlt_dec r c then true else false
  end.

Definition gtConst (x : number) (c : R) : bool :=
  match x with
  | NaN => false
  | Infinity negative => negb negative
  | Finite r => if Rlt_dec c r then true else false
  end.

(** [Math.round]: the nearest integer, a tie going towards [+Infinity]. *)
Definition round (x : R) : R := IZR (Int_part (x + / 2)).

(** [ToIntegerOrInfinity] on a finite value: truncation towards zero. *)
Definition toInteger (x : R) : Z :=
  if Rlt_dec x 0 then (- Int_part (- x))%Z else Int_part x.

(** [Math.atan2 y x]. *)
Definition strictEq (x y : R) : bool :=
  if Req_dec_T x y then true else false.

Definition atan2 (y x : R) : R :=
  if Rlt_dec 0 x then atan (y / x)
  else if Rlt_dec x 0 then
         if Rlt_dec y 0 then atan (y / x) - PI else atan (y / x) + PI
       else if Rlt_dec 0 y then PI / 2
            else if Rlt_dec y 0 then - (PI / 2) else 0.

(** [Array.prototype.slice(0, n)] for a finite [n]: a negative end counts
    from the end of the array. *)
Definition slice0 {A : Type} (n : R) (l : list A) : list A :=
  let k := toInteger n in
  if (k <? 0)%Z then firstn (Z.to_nat (Z.of_nat (List.length l) + k)) l
  else firstn (Z.to_nat k) l.

(** *** Strings *)

Definition code (c : ascii) : N := N_of_ascii c.

(** [String.prototype.toLowerCase] on code units below 256: the letters
    [A]-[Z] and the Latin-1 capitals [U+00C0]-[U+00DE] other than the
    multiplication sign. *)
Definition toLowerChar (c : ascii) : ascii :=
  let n := code c in
  if ((65 <=? n) && (n <=? 90) ||
      (192 <=? n) && (n <=? 222) && negb (n =? 215))%N%bool
  then ascii_of_N (n + 32) else c.

Fixpoint toLowerCase (s : string) : string :=
  match s with
  | EmptyString => EmptyString
  | String c s' => String (toLowerChar c) (toLowerCase s')
  end.

(** [s.includes(q)]. *)
Fixpoint includes (s q : string) : bool :=
  if String.prefix q s then true
  else match s with
       | EmptyString => false
       | String _ s' => includes s' q
       end.

(** Truthiness of a string: only the empty string is falsy. *)
Definition nonEmpty (s : string) : bool :=
  match s with EmptyString => false | String _ _ => true end.

(** *** String to number *)

Definition isWhiteSpace (c : ascii) : bool :=
  let n := code c in
  ((9 <=? n) && (n <=? 13) || (n =? 32) || (n =? 160))%N%bool.

Definition digitOf (base : N) (c : ascii) : option Z :=
  let n := code c in
  let v := if ((48 <=? n) && (n <=? 57))%N%bool then Some (n - 48)%N
           else if ((97 <=? n) && (n <=? 102))%N%bool then Some (n - 87)%N
           else if ((65 <=? n) && (n <=? 70))%N%bool then Some (n - 55)%N
           else None in
  match v with
  | Some d => if (d <? base)%N then Some (Z.of_N d) else None
  | None => None
  end.

Fixpoint dropWhile {A : Type} (f : A -> bool) (l : list A) : list A :=
  match l with
  | [] => []
  | x :: l' => if f x then dropWhile f l' else l
  end.

Definition trim (l : list ascii) : list ascii :=
  rev (dropWhile isWhiteSpace (rev (dropWhile isWhiteSpace l))).

(** Reads the digits at the head of [l] in the given base on top of [acc];
    answers the value, how many digits were read, and what follows. *)
Fixpoint scanDigits (base : N) (l : list ascii) (acc : Z) (count : Z)
  : Z * Z * list ascii :=
  match l with
  | [] => (acc, count, [])
  | c :: l' =>
      match digitOf base c with
      | Some d => scanDigits base l' (acc * Z.of_N base + d)%Z (count + 1)%Z
      | None => (acc, count, l)
      end
  end.

Definition scanSign (l : list ascii) : bool * list ascii :=
  match l with
  | "-"%char :: l' => (true, l')
  | "+"%char :: l' => (false, l')
  | _ => (false, l)
  end.

Fixpoint startsWith (p l : list ascii) : option (list ascii) :=
  match p, l with
  | [], _ => Some l
  | a :: p', b :: l' => if Ascii.eqb a b then startsWith p' l' else None
  | _ :: _, [] => None
  end.

(** The value [m * 10^e]. *)
Definition decimalValue (m e : Z) : R :=
  if (0 <=? e)%Z then IZR (m * 10 ^ e) else IZR m / IZR (10 ^ (- e)).

(** An exponent part is read only when a digit follows it. *)
Definition scanExponent (l : list ascii) : Z * list ascii :=
  match l with
  | c :: t =>
      if (Ascii.eqb c "e" || Ascii.eqb c "E")%bool then
        let '(neg, t1) := scanSign t in
        let '(v, n, t2) := scanDigits 10 t1 0 0 in
        if (n =? 0)%Z then (0%Z, l) else ((if neg then - v else v)%Z, t2)
      else (0%Z, l)
  | [] => (0%Z, l)
  end.

(** The longest [StrDecimalLiteral] at the head of [l], with what follows
    it; [None] when there is none. *)
Definition scanDecimal (l : list ascii) : option (number * list ascii) :=
  let '(neg, l1) := scanSign l in
  match startsWith (list_ascii_of_string "Infinity") l1 with
  | Some rest => Some (Infinity neg, rest)
  | None =>
      let '(ip, ni, l2) := scanDigits 10 l1 0 0 in
      let '(m, nf, l3) :=
        match l2 with
        | "."%char :: t => scanDigits 10 t ip 0
        | _ => (ip, 0%Z, l2)
        end in
      if (ni + nf =? 0)%Z then None
      else
        let '(e, l4) := scanExponent l3 in
        Some (Finite (decimalValue (if neg then - m else m) (e - nf)), l4)
  end.

(** [0x], [0o] and [0b] literals: no sign, at least one digit, nothing
    after the digits. *)
Definition scanRadix (l : list ascii) : option Z :=
  match l with
  | "0"%char :: p :: t =>
      let n := code (toLowerChar p) in
      let base := if (n =? 120)%N then Some 16%N
                  else if (n =? 111)%N then Some 8%N
                  else if (n =? 98)%N then Some 2%N else None in
      match base with
      | Some b =>
          match scanDigits b t 0 0 with
          | (v, k, []) => if (k =? 0)%Z then None else Some v
          | _ => None
          end
      | None => None
      end
  | _ => None
  end.

(** [StringToNumber]: the conversion applied by [Number(s)]. *)
Definition StringToNumber (s : string) : number :=
  match trim (list_ascii_of_string s) with
  | [] => Finite 0
  | l =>
      match scanRadix l with
      | Some v => Finite (IZR v)
      | None =>
          match scanDecimal l with
          | Some (v, []) => v
          | _ => NaN
          end
      end
  end.

(** [parseFloat s]: leading white space is skipped and anything after the
    literal is ignored. *)
Definition parseFloat (s : string) : number :=
  match scanDecimal (dropWhile isWhiteSpace (list_ascii_of_string s)) with
  | Some (v, _) => v
  | None => NaN
  end.

(** The values the routes handle dynamically: what [URLSearchParams.get]
    answers ([null] or a string) and the defaults of the schemas. *)
Inductive value : Type :=
| Undefined
| Null
| Str (s : string)
| Num (x : R)
| Bool (b : bool).

(** [Number(v)] *)
Definition Number (v : value) : number :=
  match v with
  | Undefined => NaN
  | Null => Finite 0
  | Str s => StringToNumber s
  | Num x => Finite x
  | Bool b => Finite (if b then 1 else 0)
  end.

(** [Boolean(v)] *)
Definition Boolean (v : value) : bool :=
  match v with
  | Undefined => false
  | Null => false
  | Str s => nonEmpty s
  | Num x => truthy (Finite x)
  | Bool b => b
  end.

End JS.

(** ** [src/lib/utils.ts] *)

Definition toRadians (degrees : R) : R := degrees * (PI / 180).

(** Distance calculation using the haversine formula. *)
Definition calculateDistance (lat1 lng1 lat2 lng2 : R) : R :=
  let R_ := 6371 in
  let dLat := toRadians (lat2 - lat1) in
  let dLng := toRadians (lng2 - lng1) in
  let a :=
    sin (dLat / 2) * sin (dLat / 2) +
    cos (toRadians lat1) *
      cos (toRadians lat2) *
      sin (dLng / 2) *
      sin (dLng / 2) in
  let c := 2 * JS.atan2 (sqrt a) (sqrt (1 - a)) in
  R_ * c.

Record Coords : Type := { latitude : R; longitude : R }.

(** Default Byron Bay coordinates. *)
Definition BYRON_BAY_COORDS : Coords :=
  {| latitude := -28.6434; longitude := 153.6148 |}.


(** Generate search suggestions. *)
Definition suggestions : list string :=
  [ "hoodie"; "t-shirt"; "jacket"; "jeans"; "sneakers";
    "dress"; "shirt"; "sweater"; "pants"; "shoes" ]%string.

Definition generateSearchSuggestions (query : string) : list string :=
  if negb (JS.nonEmpty query) then JS.slice0 5 suggestions
  else
    let filtered :=
      filter (fun suggestion =>
                JS.includes (JS.toLowerCase suggestion) (JS.toLowerCase query))
             suggestions in
    JS.slice0 5 filtered.

(** ** Exceptions *)

Inductive ZodIssueCode : Type := invalid_type | too_small | too_big.

Record ZodIssue : Type := { path : string; issue : ZodIssueCode }.

Inductive Exn : Type :=
| ZodError (issues : list ZodIssue)
| PrismaError.

Inductive result (E A : Type) : Type :=
| Ok (a : A)
| Throw (e : E).
Arguments Ok {E A} a.
Arguments Throw {E A} e.

Definition bind {E A B : Type} (m : result E A) (k : A -> result E B)
  : result E B :=
  match m with
  | Ok a => k a
  | Throw e => Throw e
  end.

Notation "'let*' x ':=' m 'in' k" := (bind m (fun x => k))
  (at level 10, x name, m at level 100, k at level 200,
   format "'let*'  x  ':='  m  'in'  '//' k").

(** ** zod *)

Module Zod.

Definition ZodType (A : Type) : Type :=
  JS.value -> result (list ZodIssueCode) A.

Definition checked {A : Type} (issues : list ZodIssueCode) (a : A)
  : result (list ZodIssueCode) A :=
  match issues with
  | [] => Ok a
  | _ => Throw issues
  end.

(** [z.string()] *)
Definition string_ : ZodType string := fun v =>
  match v with
  | JS.Str s => Ok s
  | _ => Throw [invalid_type]
  end.

(** [z.string().min(lo).max(hi)] *)
Definition string_min_max (lo hi : nat) : ZodType string := fun v =>
  match v with
  | JS.Str s =>
      checked ((if (String.length s <? lo)%nat then [too_small] else []) ++
               (if (hi <? String.length s)%nat then [too_big] else [])) s
  | _ => Throw [invalid_type]
  end.

(** [z.string().max(hi)] *)
Definition string_max (hi : nat) : ZodType string := fun v =>
  match v with
  | JS.Str s => checked (if (hi <? String.length s)%nat then [too_big] else []) s
  | _ => Throw [invalid_type]
  end.

(** [z.coerce.number().min(lo).max(hi)]: the input goes through [Number]
    first; [NaN] is not a number for zod, and both bounds are inclusive. *)
Definition coerce_number_min_max (lo hi : R) : ZodType R := fun v =>
  match JS.Number v with
  | JS.NaN => Throw [invalid_type]
  | JS.Infinity negative => Throw [if negative then too_small else too_big]
  | JS.Finite r =>
      checked ((if JS.ltConst (JS.Finite r) lo then [too_small] else []) ++
               (if JS.gtConst (JS.Finite r) hi then [too_big] else [])) r
  end.

(** [z.coerce.boolean()] *)
Definition coerce_boolean : ZodType bool := fun v => Ok (JS.Boolean v).

(** [.optional()]: only [undefined] is let through. *)
Definition optional {A : Type} (t : ZodType A) : ZodType (option A) := fun v =>
  match v with
  | JS.Undefined => Ok None
  | _ => let* a := t v in Ok (Some a)
  end.

(** [.default(d)]: only [undefined] is replaced by the default. *)
Definition default {A : Type} (d : JS.value) (t : ZodType A) : ZodType A := fun v =>
  match v with
  | JS.Undefined => t d
  | _ => t v
  end.

(** The issues of one key of a [z.object]. *)
Definition at_ {A : Type} (key : string) (r : result (list ZodIssueCode) A)
  : list ZodIssue :=
  match r with
  | Ok _ => []
  | Throw codes => map (fun c => {| path := key; issue := c |}) codes
  end.

End Zod.

(** [URLSearchParams]: the decoded pairs of the query string, in order. *)
Definition URLSearchParams : Type := list (string * string).

Fixpoint get (searchParams : URLSearchParams) (name : string) : JS.value :=
  match searchParams with
  | [] => JS.Null
  | (k, v) :: rest => if String.eqb k name then JS.Str v else get rest name
  end.

(** ** The catalog store (Prisma models, with their relations included) *)

Record Address : Type :=
  { street : string; city : string; state : string;
    postcode : string; country : string }.

(** [Date] values are milliseconds since the epoch. *)
Definition Date : Type := Z.

Record Merchant : Type :=
  { merchant_id : string;
    merchant_name : string;
    merchant_address : Address;
    merchant_latitude : R;
    merchant_longitude : R;
    merchant_isActive : bool }.

Record Inventory : Type :=
  { inventory_quantity : Z;
    inventory_lastSyncAt : Date }.

Record ProductVariation : Type :=
  { variation_id : string;
    variation_name : string;
    variation_price : R;
    variation_attributes : list (string * string);
    variation_inventory : list Inventory }.

Record Product : Type :=
  { product_id : string;
    product_name : string;
    product_description : option string;
    product_category : option string;
    product_imageUrl : option string;
    product_basePrice : option R;
    product_isActive : bool;
    product_merchant : Merchant;
    product_variations : list ProductVariation }.

Record Search : Type :=
  { search_query : string;
    search_latitude : option R;
    search_longitude : option R;
    search_radius : option R;
    search_results : Z }.

(** The [where] argument the search route builds. *)
Record ProductWhere : Type :=
  { where_isActive : bool;
    where_merchant_isActive : bool;
    (** [OR]: name, description or category contains, mode insensitive *)
    where_OR : option string;
    (** [category]: contains, mode insensitive *)
    where_category : option string }.

Module Prisma.

(** The database behind the client, and whether the connection is about to
    fail a read or a write. *)
Record Client : Type :=
  { products : list Product;
    searches : list Search;
    readFails : bool;
    writeFails : bool }.

Definition containsInsensitive (field : option string) (q : string) : bool :=
  match field with
  | Some f => JS.includes (JS.toLowerCase f) (JS.toLowerCase q)
  | None => false
  end.

Definition satisfies (w : ProductWhere) (p : Product) : bool :=
  Bool.eqb (product_isActive p) (where_isActive w) &&
  Bool.eqb (merchant_isActive (product_merchant p)) (where_merchant_isActive w) &&
  match where_OR w with
  | Some q =>
      containsInsensitive (Some (product_name p)) q ||
      containsInsensitive (product_description p) q ||
      containsInsensitive (product_category p) q
  | None => true
  end &&
  match where_category w with
  | Some c => containsInsensitive (product_category p) c
  | None => true
  end.

(** [take] is an [Int] argument: the client refuses anything else. *)
Definition asInt (x : R) : option Z :=
  if Req_dec_T (IZR (Int_part x)) x then Some (Int_part x) else None.

(** [prisma.product.findMany({ where, include, take })].  The search route
    only ever asks for [take >= 2], so taking from the end of the table (a
    negative [take]) is left out. *)
Definition product_findMany (db : Client) (w : ProductWhere) (take : R)
  : result Exn (list Product) :=
  if readFails db then Throw PrismaError
  else match asInt take with
       | Some n => Ok (firstn (Z.to_nat n) (filter (satisfies w) (products db)))
       | None => Throw PrismaError
       end.

(** [prisma.product.findUnique({ where: { id }, include })] *)
Definition product_findUnique (db : Client) (id : string)
  : result Exn (option Product) :=
  if readFails db then Throw PrismaError
  else Ok (find (fun p => String.eqb (product_id p) id) (products db)).

(** [prisma.search.create({ data })] *)
Definition search_create (db : Client) (data : Search) : result Exn Client :=
  if writeFails db then Throw PrismaError
  else Ok {| products := products db;
             searches := searches db ++ [data];
             readFails := readFails db;
             writeFails := writeFails db |}.

End Prisma.

(** ** [src/lib/types.ts] *)

Record MerchantWithDistance : Type :=
  { id : string;
    name : string;
    address : Address;
    merchantLatitude : R;
    merchantLongitude : R;
    distance : option R }.

Record InventoryInfo : Type :=
  { quantity : Z;
    lastUpdated : Date }.

Record ProductVariationWithInventory : Type :=
  { var_id : string;
    var_name : string;
    price : R;
    attributes : list (string * string);
    inventory : InventoryInfo }.

Record ProductWithMerchant : Type :=
  { prod_id : string;
    prod_name : string;
    description : option string;
    category : option string;
    imageUrl : option string;
    basePrice : option R;
    merchant : MerchantWithDistance;
    variations : list ProductVariationWithInventory;
    totalStock : Z }.

Record APIError : Type :=
  { code : string;
    message : string;
    details : option (list ZodIssue) }.

Record Pagination : Type :=
  { total : Z; page : Z; pageLimit : R; hasMore : bool }.

Record SearchMeta : Type :=
  { metaQuery : string;
    location : Coords;
    metaRadius : R;
    executionTime : Z }.

Record SearchData : Type :=
  { data_products : list ProductWithMerchant;
    pagination : Pagination;
    searchMeta : SearchMeta }.

(** [NextResponse.json(body, { status })] with [body] either
    [{ success: true, data }] or [{ success: false, error }]. *)
Record Response (A : Type) : Type :=
  { status : Z;
    body : A + APIError }.
Arguments status {A} r.
Arguments body {A} r.

Definition success {A : Type} (data : A) : Response A :=
  {| status := 200; body := inl data |}.

Definition failure {A : Type} (st : Z) (c m : string)
           (d : option (list ZodIssue)) : Response A :=
  {| status := st; body := inr {| code := c; message := m; details := d |} |}.

(** The process around a request: the environment variable the search route
    looks at and the clock readings it takes. *)
Record Env : Type :=
  { DATABASE_URL : option string;
    startTime : Date;
    endTime : Date;
    now : Date }.

(** [String.prototype.localeCompare] is the collation of the runtime; the
    routes are parametric in it. *)
Class Collation : Type := localeCompare : string -> string -> Z.


(** The routes are served, not built: [DATABASE_URL] is set. *)
Definition configured (env : Env) : Prop :=
  exists u, DATABASE_URL env = Some u /\ JS.nonEmpty u = true.

(** ** Shaping a product for the API (the same literal in both routes) *)

(** [s || undefined] *)
Definition orUndefined (s : option string) : option string :=
  match s with
  | Some x => if JS.nonEmpty x then Some x else None
  | None => None
  end.

(** [x || undefined] for an optional number *)
Definition numOrUndefined (x : option R) : option R :=
  match x with
  | Some r => if JS.truthy (JS.Finite r) then Some r else None
  | None => None
  end.

(** [variation.inventory[0]?.quantity || 0] *)
Definition quantityOf (variation : ProductVariation) : Z :=
  match variation_inventory variation with
  | i :: _ => inventory_quantity i
  | [] => 0%Z
  end.

(** Calculate total stock. *)
Definition totalStockOf (product : Product) : Z :=
  fold_left (fun sum variation => (sum + quantityOf variation)%Z)
            (product_variations product) 0%Z.

(** [Math.round(distance * 10) / 10]: round to 1 decimal. *)
Definition round1 (d : R) : R := JS.round (d * 10) / 10.

(** Transform to API format; [dist] is what goes in [merchant.distance]. *)
Definition transformProduct (env : Env) (product : Product) (dist : option R)
  : ProductWithMerchant :=
  {| prod_id := product_id product;
     prod_name := product_name product;
     description := orUndefined (product_description product);
     category := orUndefined (product_category product);
     imageUrl := orUndefined (product_imageUrl product);
     basePrice := numOrUndefined (product_basePrice product);
     merchant :=
       {| id := merchant_id (product_merchant product);
          name := merchant_name (product_merchant product);
          address := merchant_address (product_merchant product);
          merchantLatitude := merchant_latitude (product_merchant product);
          merchantLongitude := merchant_longitude (product_merchant product);
          distance := dist |};
     variations :=
       map (fun variation =>
              {| var_id := variation_id variation;
                 var_name := variation_name variation;
                 price := variation_price variation;
                 attributes := variation_attributes variation;
                 inventory :=
                   {| quantity := quantityOf variation;
                      lastUpdated :=
                        match variation_inventory variation with
                        | i :: _ => inventory_lastSyncAt i
                        | [] => now env
                        end |} |})
           (product_variations product);
     totalStock := totalStockOf product |}.

(** [Array.prototype.filter(Boolean)] over the results of a [map] that
    answers [null] for the rows to skip. *)
Fixpoint filterBoolean {A : Type} (l : list (option A)) : list A :=
  match l with
  | [] => []
  | Some a :: l' => a :: filterBoolean l'
  | None :: l' => filterBoolean l'
  end.

(** [Array.prototype.sort(compare)]: a stable sort; [compare a b > 0] puts
    [a] after [b]. *)
Fixpoint insert {A : Type} (compare : A -> A -> R) (a : A) (l : list A)
  : list A :=
  match l with
  | [] => [a]
  | b :: l' =>
      if Rlt_dec 0 (compare a b) then b :: insert compare a l'
      else a :: b :: l'
  end.

Definition sort {A : Type} (compare : A -> A -> R) (l : list A) : list A :=
  fold_right (insert compare) [] l.

(** ** [src/app/api/search/route.ts] *)

Module SearchRoute.

Record Params : Type :=
  { query : string;
    lat : option R;
    lng : option R;
    radius : R;
    limit : R;
    category : option string;
    inStock : bool }.

Definition searchSchema (params : string -> JS.value)
  : result Exn Params :=
  let query_ := Zod.string_min_max 1 100 (params "query"%string) in
  let lat_ :=
    Zod.optional (Zod.coerce_number_min_max (-90) 90) (params "lat"%string) in
  let lng_ :=
    Zod.optional (Zod.coerce_number_min_max (-180) 180) (params "lng"%string) in
  let radius_ :=
    Zod.default (JS.Num 10) (Zod.coerce_number_min_max 1 50)
                (params "radius"%string) in
  let limit_ :=
    Zod.default (JS.Num 20) (Zod.coerce_number_min_max 1 100)
                (params "limit"%string) in
  let category_ := Zod.optional Zod.string_ (params "category"%string) in
  let inStock_ :=
    Zod.default (JS.Bool true) Zod.coerce_boolean (params "inStock"%string) in
  match query_, lat_, lng_, radius_, limit_, category_, inStock_ with
  | Ok q, Ok la, Ok ln, Ok r, Ok l, Ok c, Ok s =>
      Ok {| query := q; lat := la; lng := ln; radius := r; limit := l;
            category := c; inStock := s |}
  | _, _, _, _, _, _, _ =>
      Throw (ZodError (Zod.at_ "query" query_ ++ Zod.at_ "lat" lat_ ++
                       Zod.at_ "lng" lng_ ++ Zod.at_ "radius" radius_ ++
                       Zod.at_ "limit" limit_ ++ Zod.at_ "category" category_ ++
                       Zod.at_ "inStock" inStock_))
  end.

(** What the [map] over the candidates keeps for a row it does not skip. *)
Record Item : Type :=
  { product : ProductWithMerchant;
    itemDistance : R }.

Section Handler.

Context {collation : Collation}.

(** Filter by distance and calculate. *)
Definition withDistance (env : Env) (validatedParams : Params)
           (userLat userLng : R) (p : Product) : option Item :=
  let distance :=
    calculateDistance userLat userLng
                      (merchant_latitude (product_merchant p))
                      (merchant_longitude (product_merchant p)) in
  (* Skip if outside radius *)
  if Rlt_dec (radius validatedParams) distance then None
  else
    (* Calculate total stock *)
    let totalStock := totalStockOf p in
    (* Skip if no stock and inStock is required *)
    if (inStock validatedParams && (totalStock =? 0)%Z)%bool then None
    else
      Some {| product := transformProduct env p (Some (round1 distance));
              itemDistance := distance |}.

(** Sort by distance, then by stock, then by name. *)
Definition compareItems (a b : Item) : R :=
  if negb (JS.strictEq (itemDistance a) (itemDistance b)) then
    itemDistance a - itemDistance b
  else if negb (totalStock (product a) =? totalStock (product b))%Z then
    IZR (totalStock (product b) - totalStock (product a))
  else
    IZR (localeCompare (prod_name (product a)) (prod_name (product b))).


(** The items behind the response: filtered, sorted and cut to [limit]. *)
Definition rank (env : Env) (validatedParams : Params) (userLat userLng : R)
           (products : list Product) : list Item :=
  JS.slice0 (limit validatedParams)
    (sort compareItems
       (filterBoolean
          (map (withDistance env validatedParams userLat userLng) products))).

(** Use provided coordinates or default to Byron Bay. *)
Definition userLat (validatedParams : Params) : R :=
  match lat validatedParams with
  | Some x => x
  | None => latitude BYRON_BAY_COORDS
  end.

Definition userLng (validatedParams : Params) : R :=
  match lng validatedParams with
  | Some x => x
  | None => longitude BYRON_BAY_COORDS
  end.

(** Build where clause: text search, then category filter. *)
Definition whereClause (validatedParams : Params) : ProductWhere :=
  {| where_isActive := true;
     where_merchant_isActive := true;
     where_OR :=
       if JS.nonEmpty (query validatedParams)
       then Some (query validatedParams) else None;
     where_category :=
       match category validatedParams with
       | Some c => if JS.nonEmpty c then Some c else None
       | None => None
       end |}.

(** The response of a search that went through. *)
Definition respond (env : Env) (validatedParams : Params)
           (productsWithDistance : list ProductWithMerchant)
  : Response SearchData :=
  success
    {| data_products := productsWithDistance;
       pagination :=
         {| total := Z.of_nat (List.length productsWithDistance);
            page := 1;
            pageLimit := limit validatedParams;
            hasMore := false |};
       searchMeta :=
         {| metaQuery := query validatedParams;
            location := {| latitude := userLat validatedParams;
                           longitude := userLng validatedParams |};
            metaRadius := radius validatedParams;
            executionTime := (endTime env - startTime env)%Z |} |}.

(** The body of the [try] block, after the build-time check. *)
Definition search (env : Env) (db : Prisma.Client)
           (searchParams : URLSearchParams)
  : result Exn (Response SearchData * Prisma.Client) :=
  let params := get searchParams in
  let* validatedParams := searchSchema params in
  (* Find products with inventory *)
  let* products :=
    Prisma.product_findMany db (whereClause validatedParams)
                            (limit validatedParams * 2) in
  let productsWithDistance :=
    map product
        (rank env validatedParams (userLat validatedParams)
              (userLng validatedParams) products) in
  (* Log search for analytics *)
  let* db' :=
    Prisma.search_create db
      {| search_query := query validatedParams;
         search_latitude := Some (userLat validatedParams);
         search_longitude := Some (userLng validatedParams);
         search_radius := Some (radius validatedParams);
         search_results := Z.of_nat (List.length productsWithDistance) |} in
  Ok (respond env validatedParams productsWithDistance, db').

Definition GET (env : Env) (db : Prisma.Client)
           (searchParams : URLSearchParams)
  : Response SearchData * Prisma.Client :=
  (* Check if we're in build time (no DATABASE_URL) *)
  if negb (match DATABASE_URL env with
           | Some u => JS.nonEmpty u
           | None => false
           end)
  then (failure 503 "BUILD_TIME" "API not available during build" None, db)
  else
    match search env db searchParams with
    | Ok r => r
    | Throw (ZodError issues) =>
        (failure 400 "INVALID_PARAMS" "Invalid search parameters"
                 (Some issues), db)
    | Throw _ =>
        (failure 500 "SEARCH_ERROR" "Failed to search products" None, db)
    end.

End Handler.

End SearchRoute.

(** ** The suggestions route (second handler of [src/app/api/search/route.ts]) *)

Module SuggestionsRoute.

Record Params : Type :=
  { query : string;
    limit : R }.

Definition suggestionsSchema (params : string -> JS.value)
  : result Exn Params :=
  let query_ := Zod.string_max 50 (params "query"%string) in
  let limit_ :=
    Zod.default (JS.Num 5) (Zod.coerce_number_min_max 1 10)
                (params "limit"%string) in
  match query_, limit_ with
  | Ok q, Ok l => Ok {| query := q; limit := l |}
  | _, _ =>
      Throw (ZodError (Zod.at_ "query" query_ ++ Zod.at_ "limit" limit_))
  end.

(** [{ query: searchParams.get('query') || '', limit: searchParams.get('limit') }] *)
Definition paramsOf (searchParams : URLSearchParams) (key : string)
  : JS.value :=
  if String.eqb key "query" then
    (if JS.Boolean (get searchParams "query")
     then get searchParams "query" else JS.Str "")
  else get searchParams key.

Definition GET (searchParams : URLSearchParams) : Response (list string) :=
  match suggestionsSchema (paramsOf searchParams) with
  | Ok validatedParams =>
      let suggestions :=
        JS.slice0 (limit validatedParams)
                  (generateSearchSuggestions (query validatedParams)) in
      success suggestions
  | Throw (ZodError issues) =>
      failure 400 "INVALID_PARAMS" "Invalid parameters" (Some issues)
  | Throw _ =>
      failure 500 "SUGGESTIONS_ERROR" "Failed to get suggestions" None
  end.

End SuggestionsRoute.

(** ** [src/app/api/products/[id]/route.ts] *)

Module ProductRoute.

(** [calculateDistance] called on the results of [parseFloat]: a [NaN] or an
    infinite query coordinate reaches [Math.sin] as [NaN] or an infinity and
    comes out as [NaN]. *)
Definition calculateDistanceOf (lat1 lng1 : JS.number) (lat2 lng2 : R)
  : JS.number :=
  match lat1, lng1 with
  | JS.Finite a, JS.Finite b => JS.Finite (calculateDistance a b lat2 lng2)
  | _, _ => JS.NaN
  end.

(** Calculate distance if coordinates provided: [undefined] is [None]. *)
Definition distanceTo (lat lng : JS.value) (m : Merchant) : option JS.number :=
  match lat, lng with
  | JS.Str la, JS.Str ln =>
      if (JS.nonEmpty la && JS.nonEmpty ln)%bool then
        Some (calculateDistanceOf (JS.parseFloat la) (JS.parseFloat ln)
                                  (merchant_latitude m) (merchant_longitude m))
      else None
  | _, _ => None
  end.

(** [distance ? Math.round(distance * 10) / 10 : undefined];
    [calculateDistanceOf] never answers an infinity. *)
Definition reported (distance : option JS.number) : option R :=
  match distance with
  | Some d =>
      if JS.truthy d then
        match d with
        | JS.Finite r => Some (round1 r)
        | _ => None
        end
      else None
  | None => None
  end.

Definition GET (env : Env) (db : Prisma.Client) (productId : string)
           (searchParams : URLSearchParams) : Response ProductWithMerchant :=
  let lat := get searchParams "lat" in
  let lng := get searchParams "lng" in
  (* Find product with all related data *)
  match Prisma.product_findUnique db productId with
  | Ok None =>
      failure 404 "PRODUCT_NOT_FOUND" "Product not found" None
  | Ok (Some product) =>
      let distance := distanceTo lat lng (product_merchant product) in
      success (transformProduct env product (reported distance))
  | Throw _ =>
      failure 500 "PRODUCT_ERROR" "Failed to retrieve product" None
  end.

End ProductRoute.

(** ** More of [src/lib/utils.ts]: formatting and coordinate checks *)

Module Format.

(** [x <= y] as the language decides it. *)
Definition le (x y : R) : bool := if Rle_dec x y then true else false.

(** The decimal digits of an integer, with a minus sign when negative. *)
Definition digits (z : Z) : string := NilZero.string_of_int (Z.to_int z).

(** [Number::toString] of an integer-valued number: plain digits below
    [10^21]; beyond that the language switches to exponent notation, which
    is left out ([None]). *)
Definition integerToString (z : Z) : option string :=
  if (Z.abs z <? 10 ^ 21)%Z then Some (digits z) else None.

(** [x.toFixed(1)]: the nearest number of tenths (the larger one on a tie),
    printed with one decimal; a negative [x] is printed as [-] followed by
    the result for [-x].  From [10^21] on the language falls back to
    [Number::toString], which is left out ([None]). *)
Definition toFixed1 (x : R) : option string :=
  if Rle_dec (IZR (10 ^ 21)) (Rabs x) then None
  else
    let n := Int_part (Rabs x * 10 + / 2) in
    Some ((if Rlt_dec x 0 then "-" else "") ++
          digits (n / 10) ++ "." ++ digits (n mod 10))%string.

End Format.

(** Format distance. *)
Definition formatDistance (km : R) : option string :=
  if Rlt_dec km 1 then
    match Format.integerToString (Int_part (km * 1000 + / 2)) with
    | Some meters => Some (meters ++ "m")%string
    | None => None
    end
  else
    match Format.toFixed1 km with
    | Some tenths => Some (tenths ++ "km")%string
    | None => None
    end.

(** Validate coordinates. *)
Definition isValidCoordinate (lat lng : R) : bool :=
  Format.le (-90) lat && Format.le lat 90 &&
  Format.le (-180) lng && Format.le lng 180.

(** ** [src/lib/mapbox.ts]: the distance helper of the map service *)

Module MapboxService.

(** A point is [[longitude, latitude]]. *)
Definition Point : Type := (R * R)%type.

Definition toRadians (degrees : R) : R := degrees * (PI / 180).

Definition calculateDistance (point1 point2 : Point) : R :=
  let R_ := 6371 in
  let dLat := toRadians (snd point2 - snd point1) in
  let dLon := toRadians (fst point2 - fst point1) in
  let a :=
    sin (dLat / 2) * sin (dLat / 2) +
    cos (toRadians (snd point1)) *
      cos (toRadians (snd point2)) *
      sin (dLon / 2) *
      sin (dLon / 2) in
  let c := 2 * JS.atan2 (sqrt a) (sqrt (1 - a)) in
  R_ * c.

End MapboxService.

(** The [data] of the [prisma.search.create] call of the search route, for
    validated parameters and a number of returned products. *)
Definition logged (v : SearchRoute.Params) (results : nat) : Search :=
  {| search_query := SearchRoute.query v;
     search_latitude := Some (SearchRoute.userLat v);
     search_longitude := Some (SearchRoute.userLng v);
     search_radius := Some (SearchRoute.radius v);
     search_results := Z.of_nat results |}.

(** ** The pages that call the routes *)

(** [Number.prototype.toString] on a coordinate; the pages are parametric
    in it. *)
Class NumberToString : Type := numberToString : R -> string.

(** [data.error?.message || fallback] *)
Definition messageOr (e : APIError) (fallback : string) : string :=
  if JS.nonEmpty (message e) then message e else fallback.

(** *** The home page: [handleSearch] *)

Module HomePage.

Record State : Type :=
  { products : list ProductWithMerchant;
    loading : bool;
    error : option string;
    query : string;
    userLocation : option Coords }.

Section HandleSearch.

Context {collation : Collation} {toString : NumberToString}.

(** The query string the page builds: [query], [limit] and [inStock]
    always; [lat], [lng] and [radius] with a location. *)
Definition paramsOf (searchQuery : string) (location : option Coords)
  : URLSearchParams :=
  [ ("query", searchQuery); ("limit", "20"); ("inStock", "true") ]%string ++
  match location with
  | Some l =>
      [ ("lat", numberToString (latitude l));
        ("lng", numberToString (longitude l));
        ("radius", "10") ]%string
  | None => []
  end.

(** [handleSearch] once the request has been answered: the page state and
    the store afterwards.  The request reaches the route with the pairs the
    page encoded. *)
Definition handleSearch (env : Env) (db : Prisma.Client) (st : State)
           (searchQuery : string) (location : option Coords)
  : State * Prisma.Client :=
  let params := paramsOf searchQuery location in
  let '(response, db') := SearchRoute.GET env db params in
  let userLocation' :=
    match location with
    | Some l => Some l
    | None => userLocation st
    end in
  match body response with
  | inl data =>
      ({| products := data_products data;
          loading := false;
          error := None;
          query := searchQuery;
          userLocation := userLocation' |}, db')
  | inr e =>
      ({| products := [];
          loading := false;
          error := Some (messageOr e "Search failed");
          query := searchQuery;
          userLocation := userLocation' |}, db')
  end.

End HandleSearch.

End HomePage.

(** *** The search bar: fetching suggestions when the query changes *)

Module SearchBar.

Record State : Type :=
  { query : string;
    suggestions : list string;
    showSuggestions : bool;
    loadingSuggestions : bool }.

(** The effect on [query], after its 300 ms timer has fired and the request
    has been answered. *)
Definition fetchSuggestions (st : State) : State :=
  if (1 <? String.length (query st))%nat then
    match body (SuggestionsRoute.GET
                  [ ("query", query st); ("limit", "5") ]%string) with
    | inl l =>
        {| query := query st;
           suggestions := l;
           showSuggestions := true;
           loadingSuggestions := false |}
    | inr _ =>
        {| query := query st;
           suggestions := suggestions st;
           showSuggestions := showSuggestions st;
           loadingSuggestions := false |}
    end
  else
    {| query := query st;
       suggestions := [];
       showSuggestions := false;
       loadingSuggestions := loadingSuggestions st |}.

End SearchBar.

(** *** The product page: [fetchProduct] *)

Module ProductPage.

Record State : Type :=
  { product : option ProductWithMerchant;
    loading : bool;
    error : option string }.

(** The effect on [productId]: the page asks for
    [/api/products/{productId}] with no query string; nothing is fetched
    for an empty identity. *)
Definition fetchProduct (env : Env) (db : Prisma.Client) (st : State)
           (productId : string) : State :=
  if JS.nonEmpty productId then
    match body (ProductRoute.GET env db productId []) with
    | inl p =>
        {| product := Some p; loading := false; error := error st |}
    | inr e =>
        {| product := product st;
           loading := false;
           error := Some (messageOr e "Product not found") |}
    end
  else st.

End ProductPage.

(** ** Sample data *)

Module Sample.

(** Comparison of code units, as a collation. *)
#[export] Instance ordinal : Collation := fun a b =>
  match String.compare a b with
  | Lt => (-1)%Z
  | Eq => 0%Z
  | Gt => 1%Z
  end.

Definition env : Env :=
  {| DATABASE_URL := Some "postgresql://localhost:5432/inventory"%string;
     startTime := 1700000000000%Z;
     endTime := 1700000000245%Z;
     now := 1700000000100%Z |}.

Definition jonsonStreet : Address :=
  {| street := "123 Jonson Street"; city := "Byron Bay"; state := "NSW";
     postcode := "2481"; country := "Australia" |}.

(** A store at the default market location. *)
Definition byronStore (active : bool) : Merchant :=
  {| merchant_id := "merchant_123";
     merchant_name := "Byron Bay Clothing Co.";
     merchant_address := jonsonStreet;
     merchant_latitude := -28.6434;
     merchant_longitude := 153.6148;
     merchant_isActive := active |}.

(** A store on the equator, [0.0096] degrees east of the origin. *)
Definition equatorStore : Merchant :=
  {| merchant_id := "merchant_456";
     merchant_name := "Equator Outfitters";
     merchant_address := jonsonStreet;
     merchant_latitude := 0;
     merchant_longitude := 0.0096;
     merchant_isActive := true |}.

Definition medium (n : Z) : ProductVariation :=
  {| variation_id := "var_123";
     variation_name := "Black Hoodie - Medium";
     variation_price := 59.99;
     variation_attributes := [("size", "M"); ("color", "Black")]%string;
     variation_inventory :=
       [ {| inventory_quantity := n;
            inventory_lastSyncAt := 1699999990000%Z |} ] |}.

Definition hoodie (pid pname : string) (active : bool) (m : Merchant)
           (vs : list ProductVariation) : Product :=
  {| product_id := pid;
     product_name := pname;
     product_description := Some "Comfortable cotton blend hoodie"%string;
     product_category := Some "Clothing"%string;
     product_imageUrl := None;
     product_basePrice := Some 59.99;
     product_isActive := active;
     product_merchant := m;
     product_variations := vs |}.

Definition database (rows : list Product) (failWrites : bool)
  : Prisma.Client :=
  {| Prisma.products := rows;
     Prisma.searches := [];
     Prisma.readFails := false;
     Prisma.writeFails := failWrites |}.

(** A catalog of one hoodie, sold at the default market location. *)
Definition byronHoodie : Product :=
  hoodie "p1" "Classic Black Hoodie" true (byronStore true) [medium 5].

Definition hoodies : list Product := [ byronHoodie ].

(** A second hoodie of the same store, with more stock. *)
Definition zipHoodie : Product :=
  hoodie "p3" "Zip Hoodie" true (byronStore true) [medium 7].

Definition twoHoodies : list Product := [ byronHoodie; zipHoodie ].

(** An inactive hoodie of an inactive store. *)
Definition retired : Product :=
  hoodie "p9" "Retired Hoodie" false (byronStore false) [medium 0].

(** A hoodie sold on the equator. *)
Definition equatorHoodie : Product :=
  hoodie "p2" "Trail Hoodie" true equatorStore [medium 3].

(** Three more hoodies of the store at the default market location, all
    active: one sold out, one with no variation listed, and one whose
    counted quantity has gone below zero. *)
Definition soldOut : Product :=
  hoodie "p4" "Sold Out Hoodie" true (byronStore true) [medium 0].

Definition unlisted : Product :=
  hoodie "p7" "Unlisted Hoodie" true (byronStore true) [].

Definition oversold : Product :=
  hoodie "p8" "Oversold Hoodie" true (byronStore true) [medium (-3)].





(** [?query=hoodie&radius=5&limit=10&category=clothing] *)
Definition noLocation : URLSearchParams :=
  [ ("query", "hoodie"); ("radius", "5"); ("limit", "10");
    ("category", "clothing") ]%string.

(** [?query=hoodie] *)
Definition queryOnly : URLSearchParams := [ ("query", "hoodie") ]%string.

(** [?query=hoodie&lat=0&lng=0&radius=1.09&limit=10&category=clothing] *)
Definition fractionalRadius : URLSearchParams :=
  [ ("query", "hoodie"); ("lat", "0"); ("lng", "0"); ("radius", "1.09");
    ("limit", "10"); ("category", "clothing") ]%string.

(** [?query=hoodie&lat=-28.6434&lng=153.6148&radius=5&limit=10&category=clothing&inStock=true] *)
Definition atByron : URLSearchParams :=
  [ ("query", "hoodie"); ("lat", "-28.6434"); ("lng", "153.6148");
    ("radius", "5"); ("limit", "10"); ("category", "clothing");
    ("inStock", "true") ]%string.

(** What that request validates to. *)
Definition atByronParams : SearchRoute.Params :=
  {| SearchRoute.query := "hoodie";
     SearchRoute.lat := Some (-28.6434);
     SearchRoute.lng := Some 153.6148;
     SearchRoute.radius := 5;
     SearchRoute.limit := 10;
     SearchRoute.category := Some "clothing"%string;
     SearchRoute.inStock := true |}.

(** The same request asking, in words, for out-of-stock products too. *)
Definition inStockFalse : URLSearchParams :=
  [ ("query", "hoodie"); ("lat", "-28.6434"); ("lng", "153.6148");
    ("radius", "5"); ("limit", "10"); ("category", "clothing");
    ("inStock", "false") ]%string.



(** A store whose connection is down. *)
Definition unreachable : Prisma.Client :=
  {| Prisma.products := hoodies;
     Prisma.searches := [];
     Prisma.readFails := true;
     Prisma.writeFails := true |}.

End Sample.

(** * Properties *)

(** ** Conversions on concrete inputs *)

Example StringToNumber_decimal :
  JS.StringToNumber " 1.26 " = JS.Finite 1.26.
Proof. reflexivity. Qed.

Example StringToNumber_negative :
  JS.StringToNumber "-28.6434" = JS.Finite (-28.6434).
Proof. reflexivity. Qed.

Example StringToNumber_exponent : JS.StringToNumber "2e3" = JS.Finite 2000.
Proof. reflexivity. Qed.

Example StringToNumber_hex : JS.StringToNumber "0x1F" = JS.Finite 31.
Proof. reflexivity. Qed.

Example StringToNumber_empty : JS.StringToNumber "" = JS.Finite 0.
Proof. reflexivity. Qed.

Example StringToNumber_dangling_exponent : JS.StringToNumber "1e" = JS.NaN.
Proof. reflexivity. Qed.

Example StringToNumber_words : JS.StringToNumber "ten" = JS.NaN.
Proof. reflexivity. Qed.

Example StringToNumber_infinity :
  JS.StringToNumber "-Infinity" = JS.Infinity true.
Proof. reflexivity. Qed.

Example parseFloat_prefix : JS.parseFloat " 12.5km" = JS.Finite 12.5.
Proof. reflexivity. Qed.

Example parseFloat_dangling_exponent : JS.parseFloat "1e" = JS.Finite 1.
Proof. reflexivity. Qed.

Example parseFloat_words : JS.parseFloat "north" = JS.NaN.
Proof. reflexivity. Qed.

Example Number_null : JS.Number JS.Null = JS.Finite 0.
Proof. reflexivity. Qed.

Example Boolean_false_string : JS.Boolean (JS.Str "false") = true.
Proof. reflexivity. Qed.

Example includes_insensitive :
  JS.includes (JS.toLowerCase "T-Shirt") (JS.toLowerCase "SHI") = true.
Proof. reflexivity. Qed.

Example get_absent : get [("query", "hoodie")]%string "radius" = JS.Null.
Proof. reflexivity. Qed.

(** ** Whole numbers among the reals *)

Lemma Int_part_IZR (z : Z) : Int_part (IZR z) = z.
Proof.
  symmetry. apply Int_part_spec. lra.
Qed.

Lemma toInteger_IZR (z : Z) : JS.toInteger (IZR z) = z.
Proof.
  unfold JS.toInteger. destruct (Rlt_dec (IZR z) 0).
  - rewrite <- opp_IZR, Int_part_IZR. lia.
  - apply Int_part_IZR.
Qed.

Lemma slice0_IZR {A : Type} (n : Z) (l : list A) :
  (0 <= n)%Z -> JS.slice0 (IZR n) l = firstn (Z.to_nat n) l.
Proof.
  intros Hn. unfold JS.slice0. rewrite toInteger_IZR.
  destruct (Z.ltb_spec n 0); [lia | reflexivity].
Qed.

Lemma asInt_IZR (z : Z) : Prisma.asInt (IZR z) = Some z.
Proof.
  unfold Prisma.asInt. rewrite Int_part_IZR.
  destruct (Req_dec_T (IZR z) (IZR z)); congruence.
Qed.

(** A number schema with both bounds answers a value inside them. *)
Lemma coerce_number_min_max_Ok (lo hi : R) (v : JS.value) (r : R) :
  Zod.coerce_number_min_max lo hi v = Ok r ->
  JS.Number v = JS.Finite r /\ lo <= r <= hi.
Proof.
  unfold Zod.coerce_number_min_max.
  destruct (JS.Number v) as [| neg | x]; try discriminate.
  unfold JS.ltConst, JS.gtConst.
  destruct (Rlt_dec x lo), (Rlt_dec hi x); simpl; try discriminate.
  intros [= ->]. split; [reflexivity | lra].
Qed.

Lemma coerce_number_min_max_in (lo hi r : R) (v : JS.value) :
  JS.Number v = JS.Finite r -> lo <= r <= hi ->
  Zod.coerce_number_min_max lo hi v = Ok r.
Proof.
  intros Hv Hr. unfold Zod.coerce_number_min_max. rewrite Hv.
  unfold JS.ltConst, JS.gtConst.
  destruct (Rlt_dec r lo), (Rlt_dec hi r); try lra. reflexivity.
Qed.

Lemma coerce_number_min_max_below (lo hi r : R) (v : JS.value) :
  JS.Number v = JS.Finite r -> r < lo -> lo <= hi ->
  Zod.coerce_number_min_max lo hi v = Throw [too_small].
Proof.
  intros Hv Hr Hb. unfold Zod.coerce_number_min_max. rewrite Hv.
  unfold JS.ltConst, JS.gtConst.
  destruct (Rlt_dec r lo), (Rlt_dec hi r); try lra. reflexivity.
Qed.

(** ** The distance function *)

(** C9. The distance function is symmetric: the distance from [A] to [B]
    equals the distance from [B] to [A], for all coordinate pairs. *)
Theorem calculateDistance_symmetric (lat1 lng1 lat2 lng2 : R) :
  calculateDistance lat1 lng1 lat2 lng2 = calculateDistance lat2 lng2 lat1 lng1.
Proof.
  unfold calculateDistance, toRadians.
  replace ((lat1 - lat2) * (PI / 180) / 2)
    with (- ((lat2 - lat1) * (PI / 180) / 2)) by lra.
  replace ((lng1 - lng2) * (PI / 180) / 2)
    with (- ((lng2 - lng1) * (PI / 180) / 2)) by lra.
  rewrite !sin_neg.
  set (s1 := sin _). set (s2 := sin _).
  set (c1 := cos _). set (c2 := cos _).
  replace (- s1 * - s1 + c2 * c1 * - s2 * - s2)
    with (s1 * s1 + c1 * c2 * s2 * s2) by ring.
  reflexivity.
Qed.

(** A point is at distance zero from itself. *)
Lemma calculateDistance_same (lat lng : R) :
  calculateDistance lat lng lat lng = 0.
Proof.
  unfold calculateDistance, toRadians.
  replace ((lat - lat) * (PI / 180) / 2) with 0 by lra.
  replace ((lng - lng) * (PI / 180) / 2) with 0 by lra.
  rewrite sin_0.
  replace (0 * 0 + cos (lat * (PI / 180)) * cos (lat * (PI / 180)) * 0 * 0)
    with 0 by ring.
  replace (1 - 0) with 1 by ring.
  rewrite sqrt_0, sqrt_1. unfold JS.atan2.
  destruct (Rlt_dec 0 1); [| lra].
  replace (0 / 1) with 0 by field. rewrite atan_0. ring.
Qed.

(** On the equator the distance is the arc of the longitude difference. *)
Lemma calculateDistance_equator (lng : R) :
  0 <= lng < 180 -> calculateDistance 0 0 0 lng = 6371 * toRadians lng.
Proof.
  intros Hl. unfold calculateDistance, toRadians.
  assert (Hpi := PI_RGT_0).
  replace ((0 - 0) * (PI / 180) / 2) with 0 by lra.
  replace (0 * (PI / 180)) with 0 by lra.
  rewrite sin_0, cos_0.
  set (t := (lng - 0) * (PI / 180) / 2).
  assert (Ht : 0 <= t < PI / 2) by (unfold t; split; nra).
  replace (0 * 0 + 1 * 1 * sin t * sin t) with (Rsqr (sin t))
    by (unfold Rsqr; ring).
  assert (Hs : 0 <= sin t) by (apply sin_ge_0; lra).
  assert (Hc : 0 < cos t) by (apply cos_gt_0; lra).
  rewrite sqrt_Rsqr by exact Hs.
  replace (1 - Rsqr (sin t)) with (Rsqr (cos t))
    by (generalize (sin2_cos2 t); lra).
  rewrite sqrt_Rsqr by lra.
  unfold JS.atan2. destruct (Rlt_dec 0 (cos t)); [| lra].
  change (sin t / cos t) with (tan t).
  rewrite atan_tan by lra.
  unfold t. lra.
Qed.

Lemma PI_bounds : 3.14 < PI < 3.15.
Proof.
  generalize (PI_2_3_7_ineq 1).
  unfold sum_f_R0, tg_alt, PI_2_3_7_tg, Ratan_seq. simpl.
  intros [H1 H2]. split; lra.
Qed.

(** ** Validation of the search parameters *)

Section SearchValidation.

Import SearchRoute.

Lemma searchSchema_intro (params : string -> JS.value)
      (q : string) (la ln : option R) (r l : R) (c : option string)
      (s : bool) :
  Zod.string_min_max 1 100 (params "query"%string) = Ok q ->
  Zod.optional (Zod.coerce_number_min_max (-90) 90) (params "lat"%string)
  = Ok la ->
  Zod.optional (Zod.coerce_number_min_max (-180) 180) (params "lng"%string)
  = Ok ln ->
  Zod.default (JS.Num 10) (Zod.coerce_number_min_max 1 50)
              (params "radius"%string) = Ok r ->
  Zod.default (JS.Num 20) (Zod.coerce_number_min_max 1 100)
              (params "limit"%string) = Ok l ->
  Zod.optional Zod.string_ (params "category"%string) = Ok c ->
  Zod.default (JS.Bool true) Zod.coerce_boolean (params "inStock"%string)
  = Ok s ->
  searchSchema params =
  Ok {| query := q; lat := la; lng := ln; radius := r; limit := l;
        category := c; inStock := s |}.
Proof.
  intros Hq Hla Hln Hr Hl Hc Hs. unfold searchSchema.
  rewrite Hq, Hla, Hln, Hr, Hl, Hc, Hs. reflexivity.
Qed.

Lemma searchSchema_inv (params : string -> JS.value) (v : Params) :
  searchSchema params = Ok v ->
  Zod.string_min_max 1 100 (params "query"%string) = Ok (query v) /\
  Zod.optional (Zod.coerce_number_min_max (-90) 90) (params "lat"%string)
  = Ok (lat v) /\
  Zod.optional (Zod.coerce_number_min_max (-180) 180) (params "lng"%string)
  = Ok (lng v) /\
  Zod.default (JS.Num 10) (Zod.coerce_number_min_max 1 50)
              (params "radius"%string) = Ok (radius v) /\
  Zod.default (JS.Num 20) (Zod.coerce_number_min_max 1 100)
              (params "limit"%string) = Ok (limit v) /\
  Zod.optional Zod.string_ (params "category"%string) = Ok (category v) /\
  Zod.default (JS.Bool true) Zod.coerce_boolean (params "inStock"%string)
  = Ok (inStock v).
Proof.
  unfold searchSchema.
  destruct (Zod.string_min_max 1 100 _) as [q |];
    destruct (Zod.optional (Zod.coerce_number_min_max (-90) 90) _) as [la |];
    destruct (Zod.optional (Zod.coerce_number_min_max (-180) 180) _) as [ln |];
    destruct (Zod.default (JS.Num 10) _ _) as [r |];
    destruct (Zod.default (JS.Num 20) _ _) as [l |];
    destruct (Zod.optional Zod.string_ _) as [c |];
    destruct (Zod.default (JS.Bool true) _ _) as [s |];
    try discriminate.
  intros [= <-]. simpl. repeat split; reflexivity.
Qed.

(** A key that a schema with a number bound from [1] sees as [null] is
    coerced to [0] and refused, default or not. *)
Lemma default_number_null (d : JS.value) (hi : R) :
  1 <= hi ->
  Zod.default d (Zod.coerce_number_min_max 1 hi) JS.Null = Throw [too_small].
Proof.
  intros Hhi. unfold Zod.default.
  apply coerce_number_min_max_below with (r := 0); [reflexivity | lra | lra].
Qed.

(** A [null] latitude or longitude is coerced to [0], which is in range. *)
Lemma optional_number_null (lo hi : R) :
  lo <= 0 <= hi ->
  Zod.optional (Zod.coerce_number_min_max lo hi) JS.Null = Ok (Some 0).
Proof.
  intros H. unfold Zod.optional.
  rewrite (coerce_number_min_max_in lo hi 0); [reflexivity | reflexivity | lra].
Qed.

Lemma get_not_Undefined (sp : URLSearchParams) (key : string) :
  get sp key <> JS.Undefined.
Proof.
  induction sp as [| [k v] sp IH]; simpl; [discriminate |].
  destruct (String.eqb k key); [discriminate | exact IH].
Qed.

(** No key read from the query string is ever [undefined], so for these
    routes [.default()] never substitutes its value and [.optional()] never
    answers [undefined]. *)
Lemma default_never_applies {A : Type} (d : JS.value) (t : Zod.ZodType A)
      (sp : URLSearchParams) (key : string) :
  Zod.default d t (get sp key) = t (get sp key).
Proof.
  unfold Zod.default. generalize (get_not_Undefined sp key).
  destruct (get sp key); congruence.
Qed.

Lemma optional_never_undefined {A : Type} (t : Zod.ZodType A)
      (sp : URLSearchParams) (key : string) (a : option A) :
  Zod.optional t (get sp key) = Ok a -> exists x, a = Some x.
Proof.
  unfold Zod.optional. generalize (get_not_Undefined sp key).
  destruct (get sp key); try congruence;
    destruct (t _); simpl; intros _ [= <-]; eexists; reflexivity.
Qed.

Lemma validated_bounds (params : string -> JS.value) (v : Params) :
  searchSchema params = Ok v ->
  1 <= radius v <= 50 /\ 1 <= limit v <= 100.
Proof.
  intros H. apply searchSchema_inv in H.
  destruct H as (_ & _ & _ & Hr & Hl & _).
  unfold Zod.default in Hr, Hl.
  split.
  - destruct (params "radius"%string);
      apply coerce_number_min_max_Ok in Hr; apply Hr.
  - destruct (params "limit"%string);
      apply coerce_number_min_max_Ok in Hl; apply Hl.
Qed.

End SearchValidation.

(** ** The search handler *)

Section SearchHandler.

Import SearchRoute.
Context {collation : Collation}.

Lemma GET_configured (env : Env) (db : Prisma.Client)
      (sp : URLSearchParams) :
  configured env ->
  GET env db sp =
  match search env db sp with
  | Ok r => r
  | Throw (ZodError issues) =>
      (failure 400 "INVALID_PARAMS" "Invalid search parameters"
               (Some issues), db)
  | Throw _ =>
      (failure 500 "SEARCH_ERROR" "Failed to search products" None, db)
  end.
Proof.
  intros (u & Hu & Hne). unfold GET. rewrite Hu, Hne. reflexivity.
Qed.

(** What stands behind a success response. *)
Lemma GET_success_inv (env : Env) (db : Prisma.Client)
      (sp : URLSearchParams) (data : SearchData) :
  body (fst (GET env db sp)) = inl data ->
  exists v rows,
    searchSchema (get sp) = Ok v /\
    Prisma.product_findMany db (whereClause v) (limit v * 2) = Ok rows /\
    Prisma.writeFails db = false /\
    respond env v (map product (rank env v (userLat v) (userLng v) rows))
    = success data.
Proof.
  unfold GET.
  destruct (negb _); [discriminate |].
  unfold search.
  destruct (searchSchema (get sp)) as [v | e] eqn:Hv; simpl.
  2:{ destruct e; discriminate. }
  destruct (Prisma.product_findMany db (whereClause v) (limit v * 2))
    as [rows | e] eqn:Hrows; simpl.
  2:{ destruct e; discriminate. }
  unfold Prisma.search_create.
  destruct (Prisma.writeFails db) eqn:Hw; simpl; [discriminate |].
  intros H. exists v, rows. split; [reflexivity |].
  split; [exact Hrows |]. split; [reflexivity |].
  unfold respond, success in *. simpl in H.
  injection H as <-. reflexivity.
Qed.

(** The four requests of the sample data, validated. *)
Lemma noLocation_validated :
  searchSchema (get Sample.noLocation) =
  Ok {| query := "hoodie"; lat := Some 0; lng := Some 0; radius := 5;
        limit := 10; category := Some "clothing"%string; inStock := false |}.
Proof.
  apply searchSchema_intro; try reflexivity.
  - apply (optional_number_null (-90) 90). lra.
  - apply (optional_number_null (-180) 180). lra.
  - change (Zod.coerce_number_min_max 1 50 (JS.Str "5") = Ok 5).
    apply coerce_number_min_max_in; [reflexivity | lra].
  - change (Zod.coerce_number_min_max 1 100 (JS.Str "10") = Ok 10).
    apply coerce_number_min_max_in; [reflexivity | lra].
Qed.

Lemma findMany_sample (rows : list Product) (failWrites : bool)
      (w : ProductWhere) (n : Z) (take : R) :
  take = IZR n ->
  Prisma.product_findMany (Sample.database rows failWrites) w take =
  Ok (firstn (Z.to_nat n) (filter (Prisma.satisfies w) rows)).
Proof.
  intros ->. unfold Prisma.product_findMany. simpl.
  rewrite asInt_IZR. reflexivity.
Qed.

Lemma sample_configured : configured Sample.env.
Proof.
  eexists. split; reflexivity.
Qed.

End SearchHandler.

(** ** Claims about validation and logging *)

Section SearchClaims.

Import SearchRoute.
Context {collation : Collation}.

(** C1 (as amended). When validation and the catalog read succeed but the
    analytics log write fails, the search answers the internal-error
    response [SEARCH_ERROR] with status 500: the write is awaited inside the
    handler's only [try] block and its failure is not absorbed. *)
Theorem log_failure_is_search_error (env : Env) (db : Prisma.Client)
        (sp : URLSearchParams) (v : Params) (rows : list Product) :
  configured env ->
  searchSchema (get sp) = Ok v ->
  Prisma.product_findMany db (whereClause v) (limit v * 2) = Ok rows ->
  Prisma.writeFails db = true ->
  GET env db sp =
  (failure 500 "SEARCH_ERROR" "Failed to search products" None, db).
Proof.
  intros Hc Hv Hrows Hw. rewrite GET_configured by exact Hc.
  unfold search. rewrite Hv. simpl. rewrite Hrows. simpl.
  unfold Prisma.search_create. rewrite Hw. reflexivity.
Qed.

(** C2. Every successful search that omits both [lat] and [lng] resolves
    the coordinate to [(0, 0)], which is not the fallback coordinate: the
    [null] of an absent key is coerced to [0] before [.optional()] or the
    [??] default can apply. *)
Theorem omitted_location_resolves_to_origin (env : Env) (db : Prisma.Client)
        (sp : URLSearchParams) (data : SearchData) :
  body (fst (GET env db sp)) = inl data ->
  get sp "lat" = JS.Null ->
  get sp "lng" = JS.Null ->
  location (searchMeta data) = {| latitude := 0; longitude := 0 |} /\
  location (searchMeta data) <> BYRON_BAY_COORDS.
Proof.
  intros Hok Hlat Hlng.
  apply GET_success_inv in Hok.
  destruct Hok as (v & rows & Hv & _ & _ & Hresp).
  apply searchSchema_inv in Hv.
  destruct Hv as (_ & Hla & Hln & _).
  rewrite Hlat in Hla. rewrite Hlng in Hln.
  rewrite optional_number_null in Hla by lra.
  rewrite optional_number_null in Hln by lra.
  injection Hla as Hla. injection Hln as Hln.
  unfold respond, success in Hresp. injection Hresp as <-. simpl.
  unfold userLat, userLng. rewrite <- Hla, <- Hln.
  split; [reflexivity |].
  unfold BYRON_BAY_COORDS. intros [= H _]. lra.
Qed.

(** C3. A request that omits [radius], [limit], [category] and [inStock]
    fails validation: it is answered [INVALID_PARAMS] with an issue on each
    of [radius], [limit] and [category], and no default applies. *)
Theorem omitted_parameters_rejected (env : Env) (db : Prisma.Client)
        (sp : URLSearchParams) :
  configured env ->
  get sp "radius" = JS.Null ->
  get sp "limit" = JS.Null ->
  get sp "category" = JS.Null ->
  get sp "inStock" = JS.Null ->
  exists issues,
    GET env db sp =
    (failure 400 "INVALID_PARAMS" "Invalid search parameters" (Some issues),
     db) /\
    In {| path := "radius"; issue := too_small |} issues /\
    In {| path := "limit"; issue := too_small |} issues /\
    In {| path := "category"; issue := invalid_type |} issues /\
    Zod.default (JS.Bool true) Zod.coerce_boolean (get sp "inStock")
    = Ok false.
Proof.
  intros Hc Hr Hl Hcat Hin. rewrite GET_configured by exact Hc.
  rewrite Hin.
  unfold search, searchSchema. rewrite Hr, Hl, Hcat.
  rewrite !default_number_null by lra.
  change (Zod.optional Zod.string_ JS.Null) with
    (@Throw (list ZodIssueCode) (option string) [invalid_type]).
  destruct (Zod.string_min_max 1 100 _);
    destruct (Zod.optional (Zod.coerce_number_min_max (-90) 90) _);
    destruct (Zod.optional (Zod.coerce_number_min_max (-180) 180) _);
    simpl; eexists; (split; [reflexivity |]);
    repeat rewrite in_app_iff; simpl; tauto.
Qed.

End SearchClaims.

Section SearchClaimsAtSample.

Import SearchRoute.

Lemma noLocation_found (failWrites : bool) :
  Prisma.product_findMany
    (Sample.database Sample.hoodies failWrites)
    (whereClause
       {| query := "hoodie"; lat := Some 0; lng := Some 0; radius := 5;
          limit := 10; category := Some "clothing"%string;
          inStock := false |})
    (10 * 2) = Ok Sample.hoodies.
Proof.
  rewrite (findMany_sample _ _ _ 20) by (simpl; lra). reflexivity.
Qed.

Lemma noLocation_succeeds :
  exists data,
    body (fst (GET (collation := Sample.ordinal) Sample.env
                   (Sample.database Sample.hoodies false) Sample.noLocation))
    = inl data.
Proof.
  rewrite GET_configured by exact sample_configured.
  unfold search. rewrite noLocation_validated. simpl bind.
  rewrite noLocation_found. simpl. eexists. reflexivity.
Qed.

(** C1 (counterexample). The same request against the same catalog: with a
    working log the search succeeds; with a failing log write it is answered
    [SEARCH_ERROR]. *)
Lemma log_failure_not_absorbed :
  (exists data,
      body (fst (GET (collation := Sample.ordinal) Sample.env
                     (Sample.database Sample.hoodies false) Sample.noLocation))
      = inl data) /\
  fst (GET (collation := Sample.ordinal) Sample.env
           (Sample.database Sample.hoodies true) Sample.noLocation)
  = failure 500 "SEARCH_ERROR" "Failed to search products" None.
Proof.
  split; [exact noLocation_succeeds |].
  rewrite GET_configured by exact sample_configured.
  unfold search. rewrite noLocation_validated. simpl bind.
  rewrite noLocation_found. reflexivity.
Qed.

Lemma log_failure_is_search_error_witness :
  GET (collation := Sample.ordinal) Sample.env
      (Sample.database Sample.hoodies true) Sample.noLocation =
  (failure 500 "SEARCH_ERROR" "Failed to search products" None,
   Sample.database Sample.hoodies true).
Proof.
  apply (log_failure_is_search_error (collation := Sample.ordinal)
           Sample.env (Sample.database Sample.hoodies true) Sample.noLocation
           _ Sample.hoodies sample_configured noLocation_validated
           (noLocation_found true)).
  reflexivity.
Defined.

Lemma omitted_location_resolves_to_origin_witness :
  exists data,
    body (fst (GET (collation := Sample.ordinal) Sample.env
                   (Sample.database Sample.hoodies false) Sample.noLocation))
    = inl data /\
    location (searchMeta data) = {| latitude := 0; longitude := 0 |} /\
    location (searchMeta data) <> BYRON_BAY_COORDS.
Proof.
  destruct noLocation_succeeds as [data Hdata].
  exists data. split; [exact Hdata |].
  apply (omitted_location_resolves_to_origin (collation := Sample.ordinal)
           Sample.env (Sample.database Sample.hoodies false) Sample.noLocation data
           Hdata); reflexivity.
Defined.

Lemma omitted_parameters_rejected_witness :
  exists issues,
    GET (collation := Sample.ordinal) Sample.env
        (Sample.database Sample.hoodies false) Sample.queryOnly =
    (failure 400 "INVALID_PARAMS" "Invalid search parameters" (Some issues),
     Sample.database Sample.hoodies false) /\
    In {| path := "radius"; issue := too_small |} issues /\
    In {| path := "limit"; issue := too_small |} issues /\
    In {| path := "category"; issue := invalid_type |} issues /\
    Zod.default (JS.Bool true) Zod.coerce_boolean
                (get Sample.queryOnly "inStock") = Ok false.
Proof.
  apply (omitted_parameters_rejected (collation := Sample.ordinal)
           Sample.env (Sample.database Sample.hoodies false) Sample.queryOnly
           sample_configured); reflexivity.
Defined.

End SearchClaimsAtSample.

(** ** Lists: [filter(Boolean)], [sort], [slice] *)

Section Lists.

Context {A : Type}.

Lemma In_filterBoolean (a : A) (l : list (option A)) :
  In a (filterBoolean l) <-> In (Some a) l.
Proof.
  induction l as [| [x |] l IH]; simpl.
  - tauto.
  - rewrite IH. split; intros [H | H]; auto; left; congruence.
  - rewrite IH. split; [auto | intros [H | H]; [discriminate | auto]].
Qed.

Lemma In_insert (compare : A -> A -> R) (a x : A) (l : list A) :
  In x (insert compare a l) <-> x = a \/ In x l.
Proof.
  induction l as [| b l IH]; simpl.
  - intuition congruence.
  - destruct (Rlt_dec 0 (compare a b)); simpl; rewrite ?IH;
      intuition congruence.
Qed.

Lemma In_sort (compare : A -> A -> R) (x : A) (l : list A) :
  In x (sort compare l) <-> In x l.
Proof.
  unfold sort. induction l as [| a l IH]; simpl; [tauto |].
  rewrite In_insert, IH. intuition congruence.
Qed.

Lemma In_firstn (n : nat) (x : A) (l : list A) :
  In x (firstn n l) -> In x l.
Proof.
  revert l. induction n as [| n IH]; intros [| a l]; simpl; try tauto.
  intros [H | H]; auto.
Qed.

Lemma firstn_singleton (k : nat) (x : A) :
  (0 < k)%nat -> firstn k [x] = [x].
Proof.
  destruct k as [| k]; [lia |]. intros _. simpl. rewrite firstn_nil.
  reflexivity.
Qed.

Lemma In_slice0 (n : R) (x : A) (l : list A) :
  In x (JS.slice0 n l) -> In x l.
Proof.
  unfold JS.slice0. destruct (_ <? 0)%Z; apply In_firstn.
Qed.

(** Cutting at a bound of at least zero leaves at most that many. *)
Lemma length_slice0 (n : R) (l : list A) :
  0 <= n -> INR (List.length (JS.slice0 n l)) <= n.
Proof.
  intros Hn. unfold JS.slice0, JS.toInteger.
  destruct (Rlt_dec n 0); [lra |].
  destruct (base_Int_part n) as [Hlo Hhi].
  assert (Hk : (0 <= Int_part n)%Z).
  { apply le_IZR. apply Rnot_lt_le. intros Hneg.
    assert (IZR (Int_part n) <= -1).
    { apply IZR_le. apply lt_IZR in Hneg. lia. }
    lra. }
  destruct (Z.ltb_spec (Int_part n) 0); [lia |].
  apply Rle_trans with (IZR (Int_part n)); [| exact Hlo].
  rewrite INR_IZR_INZ. apply IZR_le.
  rewrite length_firstn. lia.
Qed.

Section Sorting.

Variable compare : A -> A -> R.
Hypothesis total : forall a b, 0 < compare a b -> compare b a <= 0.

Let le (a b : A) : Prop := compare a b <= 0.




End Sorting.




End Lists.

(** ** Rounding to one decimal *)



(** Rounding does not cross a bound that is itself a multiple of [0.1]. *)
Lemma round1_below_step (d r : R) (k : Z) :
  d <= r -> r * 10 = IZR k -> round1 d <= r.
Proof.
  intros Hd Hk. unfold round1, JS.round.
  destruct (base_Int_part (d * 10 + / 2)) as [H _].
  assert (Hz : (Int_part (d * 10 + / 2) <= k)%Z).
  { apply Z.lt_succ_r. apply lt_IZR. rewrite succ_IZR. lra. }
  apply IZR_le in Hz. lra.
Qed.

(** ** Ranking *)

Section Ranking.

Import SearchRoute.
Context {collation : Collation}.

Lemma fold_left_quantity_nonneg (vs : list ProductVariation) (acc : Z) :
  (forall variation, In variation vs -> (0 <= quantityOf variation)%Z) ->
  (acc <= fold_left (fun sum variation => (sum + quantityOf variation)%Z)
                    vs acc)%Z.
Proof.
  revert acc. induction vs as [| x vs IH]; simpl; intros acc Hq; [lia |].
  apply Z.le_trans with (acc + quantityOf x)%Z.
  - specialize (Hq x (or_introl eq_refl)). lia.
  - apply IH. intros y Hy. apply Hq. right. exact Hy.
Qed.

(** Stock never goes below zero when no counted quantity does. *)
Lemma totalStockOf_nonneg (p : Product) :
  (forall variation,
      In variation (product_variations p) -> (0 <= quantityOf variation)%Z) ->
  (0 <= totalStockOf p)%Z.
Proof.
  intros H. unfold totalStockOf. apply fold_left_quantity_nonneg. exact H.
Qed.

(** What the [map] step kept a row for. *)
Lemma withDistance_Some (env : Env) (v : Params) (uLat uLng : R)
      (p : Product) (item : Item) :
  withDistance env v uLat uLng p = Some item ->
  let d := calculateDistance uLat uLng
                             (merchant_latitude (product_merchant p))
                             (merchant_longitude (product_merchant p)) in
  itemDistance item = d /\
  product item = transformProduct env p (Some (round1 d)) /\
  d <= radius v /\
  (inStock v = true -> totalStockOf p <> 0%Z).
Proof.
  unfold withDistance. cbv zeta.
  destruct (Rlt_dec _ _) as [Hfar | Hnear]; [discriminate |].
  destruct (inStock v && (totalStockOf p =? 0)%Z)%bool eqn:Hstock;
    [discriminate |].
  intros [= <-]. simpl. repeat split.
  - lra.
  - intros Hin. rewrite Hin in Hstock. simpl in Hstock.
    apply Z.eqb_neq. exact Hstock.
Qed.

Lemma In_rank (env : Env) (v : Params) (uLat uLng : R)
      (rows : list Product) (item : Item) :
  In item (rank env v uLat uLng rows) ->
  exists p, In p rows /\ withDistance env v uLat uLng p = Some item.
Proof.
  unfold rank. intros H.
  apply In_slice0, In_sort, In_filterBoolean, in_map_iff in H.
  destruct H as (p & Hp & Hin). exists p. split; assumption.
Qed.

Lemma In_findMany (db : Prisma.Client) (w : ProductWhere) (take : R)
      (rows : list Product) (p : Product) :
  Prisma.product_findMany db w take = Ok rows ->
  In p rows -> In p (Prisma.products db) /\ Prisma.satisfies w p = true.
Proof.
  unfold Prisma.product_findMany.
  destruct (Prisma.readFails db); [discriminate |].
  destruct (Prisma.asInt take); [| discriminate].
  intros [= <-] Hin. apply In_firstn in Hin.
  apply filter_In in Hin. exact Hin.
Qed.




End Ranking.

(** ** Claims about the returned list *)

Section ResultClaims.

Import SearchRoute.
Context {collation : Collation}.

(** Every returned product is the shaped form of a fetched row that the
    [map] step kept. *)
Lemma returned_product (env : Env) (db : Prisma.Client)
      (sp : URLSearchParams) (data : SearchData) (p : ProductWithMerchant) :
  body (fst (GET env db sp)) = inl data ->
  In p (data_products data) ->
  exists v row item,
    searchSchema (get sp) = Ok v /\
    In row (Prisma.products db) /\
    withDistance env v (userLat v) (userLng v) row = Some item /\
    p = product item /\
    metaRadius (searchMeta data) = radius v /\
    location (searchMeta data) =
    {| latitude := userLat v; longitude := userLng v |}.
Proof.
  intros Hok Hin. apply GET_success_inv in Hok.
  destruct Hok as (v & rows & Hv & Hrows & _ & Hresp).
  unfold respond, success in Hresp. injection Hresp as <-.
  simpl in Hin. apply in_map_iff in Hin. destruct Hin as (item & <- & Hitem).
  apply In_rank in Hitem. destruct Hitem as (row & Hrow & Hkept).
  exists v, row, item. repeat split; try assumption; try reflexivity.
  eapply In_findMany; eassumption.
Qed.

(** C4 (as amended). For every successful search and every returned
    product, the reported distance is the rounding to one decimal of the
    distance the route computed from the resolved coordinate to the
    merchant, and that distance passed the route's test: it is not greater
    than the requested radius.  The reported distance is not greater than
    the radius either whenever the radius is a whole number of tenths of a
    kilometre (every whole-kilometre radius is).  Both bounds are stated as
    the route tests them, [distance > radius] being false, which is also
    what holds of a row whose distance the arithmetic of the language
    turns into [NaN]. *)
Theorem reported_distance_within_radius (env : Env) (db : Prisma.Client)
        (sp : URLSearchParams) (data : SearchData)
        (p : ProductWithMerchant) :
  body (fst (GET env db sp)) = inl data ->
  In p (data_products data) ->
  let r := metaRadius (searchMeta data) in
  let d := calculateDistance (latitude (location (searchMeta data)))
                             (longitude (location (searchMeta data)))
                             (merchantLatitude (merchant p))
                             (merchantLongitude (merchant p)) in
  distance (merchant p) = Some (round1 d) /\
  ~ r < d /\
  (forall k : Z, r = IZR k / 10 -> ~ r < round1 d).
Proof.
  intros Hok Hin.
  destruct (returned_product _ _ _ _ _ Hok Hin)
    as (v & row & item & _ & _ & Hkept & -> & -> & ->).
  apply withDistance_Some in Hkept. cbv zeta in Hkept.
  destruct Hkept as (_ & -> & Hd & _). simpl.
  split; [reflexivity |]. split; [lra |].
  intros k Hk. apply Rle_not_lt.
  apply (round1_below_step _ _ k); [exact Hd | lra].
Qed.

(** C5 (as amended). For every successful search with [inStock] true,
    every returned product has a [totalStock] other than 0, which is
    greater than 0 when none of the quantities listed with the product is
    negative; a candidate with zero variations has [totalStock] 0, is
    skipped by the route, and no returned product is without
    variations. *)
Theorem in_stock_results_have_stock (env : Env) (db : Prisma.Client)
        (sp : URLSearchParams) (v : Params) (data : SearchData) :
  body (fst (GET env db sp)) = inl data ->
  searchSchema (get sp) = Ok v ->
  inStock v = true ->
  (forall p, In p (data_products data) ->
             totalStock p <> 0%Z /\
             variations p <> [] /\
             ((forall x, In x (variations p) ->
                         (0 <= quantity (inventory x))%Z) ->
              (0 < totalStock p)%Z)) /\
  (forall row uLat uLng,
      product_variations row = [] ->
      totalStockOf row = 0%Z /\ withDistance env v uLat uLng row = None).
Proof.
  intros Hok Hv HinStock.
  assert (Hempty : forall row uLat uLng,
             product_variations row = [] ->
             totalStockOf row = 0%Z /\
             withDistance env v uLat uLng row = None).
  { intros row uLat uLng Hvs.
    assert (H0 : totalStockOf row = 0%Z)
      by (unfold totalStockOf; rewrite Hvs; reflexivity).
    split; [exact H0 |].
    unfold withDistance. cbv zeta. destruct (Rlt_dec _ _); [reflexivity |].
    rewrite HinStock, H0. reflexivity. }
  split; [| exact Hempty].
  intros p Hin.
  destruct (returned_product _ _ _ _ _ Hok Hin)
    as (v' & row & item & Hv' & Hrow & Hkept & -> & _).
  rewrite Hv in Hv'. injection Hv' as <-.
  assert (Hvs : product_variations row <> []).
  { intros Hvs. destruct (Hempty row (userLat v) (userLng v) Hvs) as [_ Hno].
    congruence. }
  apply withDistance_Some in Hkept. cbv zeta in Hkept.
  destruct Hkept as (_ & -> & _ & Hstock). simpl.
  specialize (Hstock HinStock).
  split; [exact Hstock |]. split.
  - intros Hnil. apply Hvs. eapply map_eq_nil. exact Hnil.
  - intros Hq.
    assert (0 <= totalStockOf row)%Z; [| lia].
    apply totalStockOf_nonneg. intros variation Hvar.
    apply (in_map (fun variation =>
                     {| var_id := variation_id variation;
                        var_name := variation_name variation;
                        price := variation_price variation;
                        attributes := variation_attributes variation;
                        inventory :=
                          {| quantity := quantityOf variation;
                             lastUpdated :=
                               match variation_inventory variation with
                               | i :: _ => inventory_lastSyncAt i
                               | [] => now env
                               end |} |})) in Hvar.
    apply Hq in Hvar. exact Hvar.
Qed.


End ResultClaims.

(** ** The search route on the sample data *)

Section SearchAtSample.

Import SearchRoute.

Lemma withDistance_kept (env : Env) (v : Params)
      (uLat uLng d : R) (p : Product) :
  calculateDistance uLat uLng (merchant_latitude (product_merchant p))
                    (merchant_longitude (product_merchant p)) = d ->
  d <= radius v ->
  (inStock v && (totalStockOf p =? 0)%Z)%bool = false ->
  withDistance env v uLat uLng p =
  Some {| product := transformProduct env p (Some (round1 d));
          itemDistance := d |}.
Proof.
  intros Hd Hr Hs. unfold withDistance. cbv zeta. rewrite Hd.
  destruct (Rlt_dec (radius v) d); [lra |]. rewrite Hs. reflexivity.
Qed.

(** A catalog of one matching row that the [map] step keeps. *)
Lemma GET_single {collation : Collation} (sp : URLSearchParams) (v : Params)
      (p : Product) (item : Item) (n : Z) :
  searchSchema (get sp) = Ok v ->
  limit v = IZR n -> (1 <= n)%Z ->
  Prisma.satisfies (whereClause v) p = true ->
  withDistance Sample.env v (userLat v) (userLng v) p = Some item ->
  fst (GET Sample.env (Sample.database [p] false) sp) =
  respond Sample.env v [product item].
Proof.
  intros Hv Hl Hn Hsat Hkept.
  rewrite GET_configured by exact sample_configured.
  unfold search. rewrite Hv. simpl bind.
  rewrite (findMany_sample _ _ _ (n * 2)) by (rewrite Hl, mult_IZR; reflexivity).
  simpl filter. rewrite Hsat.
  rewrite firstn_singleton by lia.
  simpl bind. unfold rank. simpl map at 2. rewrite Hkept.
  simpl filterBoolean. unfold sort. simpl fold_right.
  rewrite Hl, slice0_IZR by lia.
  rewrite firstn_singleton by lia.
  reflexivity.
Qed.

Lemma atByron_validated :
  searchSchema (get Sample.atByron) =
  Ok {| query := "hoodie"; lat := Some (-28.6434); lng := Some 153.6148;
        radius := 5; limit := 10; category := Some "clothing"%string;
        inStock := true |}.
Proof.
  apply searchSchema_intro; try reflexivity.
  - change (Zod.optional (Zod.coerce_number_min_max (-90) 90)
                         (JS.Str "-28.6434") = Ok (Some (-28.6434))).
    unfold Zod.optional.
    rewrite (coerce_number_min_max_in (-90) 90 (-28.6434));
      [reflexivity | reflexivity | lra].
  - change (Zod.optional (Zod.coerce_number_min_max (-180) 180)
                         (JS.Str "153.6148") = Ok (Some 153.6148)).
    unfold Zod.optional.
    rewrite (coerce_number_min_max_in (-180) 180 153.6148);
      [reflexivity | reflexivity | lra].
  - change (Zod.coerce_number_min_max 1 50 (JS.Str "5") = Ok 5).
    apply coerce_number_min_max_in; [reflexivity | lra].
  - change (Zod.coerce_number_min_max 1 100 (JS.Str "10") = Ok 10).
    apply coerce_number_min_max_in; [reflexivity | lra].
Qed.

(** The search at the store's own coordinate finds the hoodie at distance
    [0]. *)
Lemma atByron_response {collation : Collation} :
  fst (GET Sample.env (Sample.database Sample.hoodies false) Sample.atByron)
  = respond Sample.env
      {| query := "hoodie"; lat := Some (-28.6434); lng := Some 153.6148;
         radius := 5; limit := 10; category := Some "clothing"%string;
         inStock := true |}
      [transformProduct Sample.env Sample.byronHoodie (Some (round1 0))].
Proof.
  apply (GET_single Sample.atByron _ Sample.byronHoodie
           {| product := transformProduct Sample.env Sample.byronHoodie
                                          (Some (round1 0));
              itemDistance := 0 |} 10).
  - exact atByron_validated.
  - reflexivity.
  - lia.
  - reflexivity.
  - apply withDistance_kept.
    + apply calculateDistance_same.
    + simpl. lra.
    + reflexivity.
Qed.

Lemma fractionalRadius_validated :
  searchSchema (get Sample.fractionalRadius) =
  Ok {| query := "hoodie"; lat := Some 0; lng := Some 0; radius := 1.09;
        limit := 10; category := Some "clothing"%string; inStock := false |}.
Proof.
  apply searchSchema_intro; try reflexivity.
  - change (Zod.optional (Zod.coerce_number_min_max (-90) 90) (JS.Str "0")
            = Ok (Some 0)).
    unfold Zod.optional.
    rewrite (coerce_number_min_max_in (-90) 90 0);
      [reflexivity | reflexivity | lra].
  - change (Zod.optional (Zod.coerce_number_min_max (-180) 180) (JS.Str "0")
            = Ok (Some 0)).
    unfold Zod.optional.
    rewrite (coerce_number_min_max_in (-180) 180 0);
      [reflexivity | reflexivity | lra].
  - change (Zod.coerce_number_min_max 1 50 (JS.Str "1.09") = Ok 1.09).
    apply coerce_number_min_max_in; [reflexivity | lra].
  - change (Zod.coerce_number_min_max 1 100 (JS.Str "10") = Ok 10).
    apply coerce_number_min_max_in; [reflexivity | lra].
Qed.

(** The equator store is about 1.067 km from the origin. *)
Lemma equatorStore_distance :
  let d := calculateDistance 0 0 0 0.0096 in
  1.066 < d < 1.071 /\ round1 d = 1.1.
Proof.
  cbv zeta. rewrite calculateDistance_equator by lra.
  unfold toRadians. destruct PI_bounds as [Hlo Hhi].
  split; [split; lra |].
  unfold round1, JS.round.
  replace (Int_part (6371 * (0.0096 * (PI / 180)) * 10 + / 2)) with 11%Z
    by (apply Int_part_spec; split; lra).
  lra.
Qed.

Lemma fractionalRadius_response {collation : Collation} :
  fst (GET Sample.env (Sample.database [Sample.equatorHoodie] false)
           Sample.fractionalRadius)
  = respond Sample.env
      {| query := "hoodie"; lat := Some 0; lng := Some 0; radius := 1.09;
         limit := 10; category := Some "clothing"%string; inStock := false |}
      [transformProduct Sample.env Sample.equatorHoodie (Some 1.1)].
Proof.
  destruct equatorStore_distance as [[Hlo Hhi] Hround].
  apply (GET_single Sample.fractionalRadius _ Sample.equatorHoodie
           {| product := transformProduct Sample.env Sample.equatorHoodie
                                          (Some 1.1);
              itemDistance := calculateDistance 0 0 0 0.0096 |} 10).
  - exact fractionalRadius_validated.
  - reflexivity.
  - lia.
  - reflexivity.
  - rewrite <- Hround. apply withDistance_kept.
    + reflexivity.
    + simpl. lra.
    + reflexivity.
Qed.

(** Two rows kept by the [map] step, the first sorting after the second. *)
Lemma rank_swaps {collation : Collation} (env : Env) (v : Params)
      (uLat uLng : R) (p q : Product) (a b : Item) (n : Z) :
  withDistance env v uLat uLng p = Some a ->
  withDistance env v uLat uLng q = Some b ->
  0 < compareItems a b ->
  limit v = IZR n -> (2 <= n)%Z ->
  rank env v uLat uLng [p; q] = [b; a].
Proof.
  intros Ha Hb Hab Hl Hn. unfold rank. simpl map. rewrite Ha, Hb.
  simpl filterBoolean. unfold sort. simpl fold_right.
  destruct (Rlt_dec 0 (compareItems a b)); [| contradiction].
  rewrite Hl, slice0_IZR by lia.
  apply firstn_all2. simpl. lia.
Qed.

Lemma GET_sample_rows {collation : Collation} (sp : URLSearchParams)
      (v : Params) (rows : list Product) (n : Z) :
  searchSchema (get sp) = Ok v ->
  limit v = IZR n ->
  fst (GET Sample.env (Sample.database rows false) sp) =
  respond Sample.env v
    (map product
       (rank Sample.env v (userLat v) (userLng v)
             (firstn (Z.to_nat (n * 2))
                     (filter (Prisma.satisfies (whereClause v)) rows)))).
Proof.
  intros Hv Hl.
  rewrite GET_configured by exact sample_configured.
  unfold search. rewrite Hv. simpl bind.
  rewrite (findMany_sample _ _ _ (n * 2)) by (rewrite Hl, mult_IZR; reflexivity).
  reflexivity.
Qed.

(** With two hoodies at distance [0], the one with more stock comes
    first. *)
Lemma atByron_two_response :
  fst (GET (collation := Sample.ordinal) Sample.env
           (Sample.database Sample.twoHoodies false) Sample.atByron)
  = respond Sample.env
      {| query := "hoodie"; lat := Some (-28.6434); lng := Some 153.6148;
         radius := 5; limit := 10; category := Some "clothing"%string;
         inStock := true |}
      [ transformProduct Sample.env Sample.zipHoodie (Some (round1 0));
        transformProduct Sample.env Sample.byronHoodie (Some (round1 0)) ].
Proof.
  rewrite (GET_sample_rows Sample.atByron _ Sample.twoHoodies 10
             atByron_validated eq_refl).
  change (firstn (Z.to_nat (10 * 2)) (filter _ Sample.twoHoodies))
    with Sample.twoHoodies.
  unfold Sample.twoHoodies.
  rewrite (rank_swaps (collation := Sample.ordinal) _ _ _ _ _ _
             {| product := transformProduct Sample.env Sample.byronHoodie
                                            (Some (round1 0));
                itemDistance := 0 |}
             {| product := transformProduct Sample.env Sample.zipHoodie
                                            (Some (round1 0));
                itemDistance := 0 |} 10).
  - reflexivity.
  - apply withDistance_kept;
      [apply calculateDistance_same | simpl; lra | reflexivity].
  - apply withDistance_kept;
      [apply calculateDistance_same | simpl; lra | reflexivity].
  - unfold compareItems, JS.strictEq. simpl itemDistance.
    destruct (Req_dec_T 0 0); [| contradiction].
    change (0 < IZR 2). lra.
  - reflexivity.
  - lia.
Qed.

(** A row without stock is skipped when [inStock] is on, wherever its
    store is. *)
Lemma withDistance_sold_out (env : Env) (v : Params) (uLat uLng : R)
      (p : Product) :
  inStock v = true -> totalStockOf p = 0%Z ->
  withDistance env v uLat uLng p = None.
Proof.
  intros Hs H0. unfold withDistance. cbv zeta.
  destruct (Rlt_dec _ _); [reflexivity |]. rewrite Hs, H0. reflexivity.
Qed.

Lemma rank_skip {collation : Collation} (env : Env) (v : Params)
      (uLat uLng : R) (p : Product) (rows : list Product) :
  withDistance env v uLat uLng p = None ->
  rank env v uLat uLng (p :: rows) = rank env v uLat uLng rows.
Proof.
  intros Hp. unfold rank. simpl map. rewrite Hp. reflexivity.
Qed.

Lemma rank_single {collation : Collation} (env : Env) (v : Params)
      (uLat uLng : R) (p : Product) (a : Item) (n : Z) :
  withDistance env v uLat uLng p = Some a ->
  limit v = IZR n -> (1 <= n)%Z ->
  rank env v uLat uLng [p] = [a].
Proof.
  intros Ha Hl Hn. unfold rank. simpl map. rewrite Ha.
  simpl filterBoolean. unfold sort. simpl fold_right.
  rewrite Hl, slice0_IZR by lia.
  apply firstn_singleton. lia.
Qed.


(** With [inStock] on, the search at the store's coordinate skips the
    hoodie without variations and the sold-out one, both active and
    matching, and returns the one in stock. *)
Lemma atByron_stock_response :
  fst (GET (collation := Sample.ordinal) Sample.env
           (Sample.database
              [Sample.unlisted; Sample.soldOut; Sample.byronHoodie] false)
           Sample.atByron)
  = respond Sample.env
      {| query := "hoodie"; lat := Some (-28.6434); lng := Some 153.6148;
         radius := 5; limit := 10; category := Some "clothing"%string;
         inStock := true |}
      [transformProduct Sample.env Sample.byronHoodie (Some (round1 0))].
Proof.
  rewrite (GET_sample_rows Sample.atByron _ _ 10 atByron_validated eq_refl).
  change (firstn (Z.to_nat (10 * 2)) (filter _ _))
    with [Sample.unlisted; Sample.soldOut; Sample.byronHoodie].
  rewrite rank_skip by (apply withDistance_sold_out; reflexivity).
  rewrite rank_skip by (apply withDistance_sold_out; reflexivity).
  rewrite (rank_single _ _ _ _ _
             {| product := transformProduct Sample.env Sample.byronHoodie
                                            (Some (round1 0));
                itemDistance := 0 |} 10).
  - reflexivity.
  - apply withDistance_kept;
      [apply calculateDistance_same | simpl; lra | reflexivity].
  - reflexivity.
  - lia.
Qed.

(** The hoodie whose counted quantity is [-3] is returned although
    [inStock] is on. *)
Lemma atByron_oversold_response :
  fst (GET (collation := Sample.ordinal) Sample.env
           (Sample.database [Sample.oversold] false) Sample.atByron)
  = respond Sample.env
      {| query := "hoodie"; lat := Some (-28.6434); lng := Some 153.6148;
         radius := 5; limit := 10; category := Some "clothing"%string;
         inStock := true |}
      [transformProduct Sample.env Sample.oversold (Some (round1 0))].
Proof.
  apply (GET_single Sample.atByron _ Sample.oversold
           {| product := transformProduct Sample.env Sample.oversold
                                          (Some (round1 0));
              itemDistance := 0 |} 10).
  - exact atByron_validated.
  - reflexivity.
  - lia.
  - reflexivity.
  - apply withDistance_kept;
      [apply calculateDistance_same | simpl; lra | reflexivity].
Qed.





End SearchAtSample.

Section ResultClaimsAtSample.

Import SearchRoute.


(** C4 (counterexample). A search with radius 1.09 km around the origin
    returns the hoodie of a store about 1.067 km away with a reported
    distance of 1.1 km. *)
Lemma reported_distance_exceeds_radius :
  exists data p d,
    body (fst (GET (collation := Sample.ordinal) Sample.env
                   (Sample.database [Sample.equatorHoodie] false)
                   Sample.fractionalRadius)) = inl data /\
    In p (data_products data) /\
    distance (merchant p) = Some d /\
    metaRadius (searchMeta data) = 1.09 /\
    d = 1.1 /\
    metaRadius (searchMeta data) < d.
Proof.
  rewrite fractionalRadius_response.
  eexists. eexists. exists 1.1.
  split; [reflexivity |].
  split; [left; reflexivity |].
  split; [reflexivity |].
  split; [reflexivity |].
  split; [reflexivity |]. simpl. lra.
Qed.

Lemma reported_distance_within_radius_witness :
  exists data p,
    body (fst (GET (collation := Sample.ordinal) Sample.env
                   (Sample.database Sample.hoodies false) Sample.atByron))
    = inl data /\
    In p (data_products data) /\
    metaRadius (searchMeta data) = 5 /\
    exists d,
      distance (merchant p) = Some (round1 d) /\
      ~ 5 < d /\ ~ 5 < round1 d.
Proof.
  edestruct (reported_distance_within_radius (collation := Sample.ordinal)
               Sample.env (Sample.database Sample.hoodies false)
               Sample.atByron)
    as (Hd & Hr & Hk).
  - rewrite atByron_response. reflexivity.
  - left. reflexivity.
  - eexists. eexists.
    split; [rewrite atByron_response; reflexivity |].
    split; [left; reflexivity |].
    split; [reflexivity |].
    eexists. split; [exact Hd |]. split; [exact Hr |].
    apply (Hk 50%Z). simpl. lra.
Defined.

(** C5 (counterexample). A search with [inStock] on returns the active
    hoodie whose only counted quantity is [-3]: its [totalStock] is [-3],
    which is not greater than 0. *)
Lemma in_stock_result_with_negative_stock :
  exists v data p,
    searchSchema (get Sample.atByron) = Ok v /\
    inStock v = true /\
    body (fst (GET (collation := Sample.ordinal) Sample.env
                   (Sample.database [Sample.oversold] false) Sample.atByron))
    = inl data /\
    In p (data_products data) /\
    prod_id p = "p8"%string /\
    totalStock p = (-3)%Z /\
    ~ (0 < totalStock p)%Z.
Proof.
  rewrite atByron_oversold_response, atByron_validated.
  eexists. eexists. eexists.
  split; [reflexivity |]. split; [reflexivity |].
  split; [reflexivity |]. split; [left; reflexivity |].
  split; [reflexivity |]. split; [reflexivity |].
  vm_compute. discriminate.
Qed.

Lemma in_stock_results_have_stock_witness :
  exists data,
    body (fst (GET (collation := Sample.ordinal) Sample.env
                   (Sample.database
                      [Sample.unlisted; Sample.soldOut; Sample.byronHoodie]
                      false)
                   Sample.atByron))
    = inl data /\
    map prod_id (data_products data) = ["p1"]%string /\
    Prisma.satisfies (whereClause Sample.atByronParams) Sample.unlisted
    = true /\
    Prisma.satisfies (whereClause Sample.atByronParams) Sample.soldOut
    = true /\
    (forall p, In p (data_products data) ->
               totalStock p <> 0%Z /\
               variations p <> [] /\
               ((forall x, In x (variations p) ->
                           (0 <= quantity (inventory x))%Z) ->
                (0 < totalStock p)%Z)) /\
    (forall row uLat uLng,
        product_variations row = [] ->
        totalStockOf row = 0%Z /\
        withDistance Sample.env Sample.atByronParams uLat uLng row = None).
Proof.
  eexists. split.
  - rewrite atByron_stock_response. reflexivity.
  - split; [reflexivity |]. split; [reflexivity |]. split; [reflexivity |].
    apply (in_stock_results_have_stock (collation := Sample.ordinal)
             Sample.env
             (Sample.database
                [Sample.unlisted; Sample.soldOut; Sample.byronHoodie] false)
             Sample.atByron).
    + rewrite atByron_stock_response. reflexivity.
    + exact atByron_validated.
    + reflexivity.
Defined.



(** The two hoodies come back with the better-stocked one first. *)
Example two_hoodies_by_stock :
  exists data,
    body (fst (GET (collation := Sample.ordinal) Sample.env
                   (Sample.database Sample.twoHoodies false) Sample.atByron))
    = inl data /\
    map prod_id (data_products data) = ["p3"; "p1"]%string /\
    map totalStock (data_products data) = [7; 5]%Z /\
    total (pagination data) = 2%Z /\
    hasMore (pagination data) = false.
Proof.
  rewrite atByron_two_response. eexists. split; [reflexivity |].
  repeat split.
Qed.

End ResultClaimsAtSample.

(** ** The suggestion generator *)

Section Suggestions.

Import SuggestionsRoute.

(** What the generator answers: the matching vocabulary, in order, cut to
    five. *)
Lemma generateSearchSuggestions_eq (q : string) :
  generateSearchSuggestions q =
  firstn 5
    (if JS.nonEmpty q
     then filter (fun suggestion =>
                    JS.includes (JS.toLowerCase suggestion) (JS.toLowerCase q))
                 suggestions
     else suggestions).
Proof.
  unfold generateSearchSuggestions.
  destruct (JS.nonEmpty q); simpl negb; cbv iota zeta;
    rewrite (slice0_IZR 5) by lia; reflexivity.
Qed.

Example suggestions_for_sh :
  generateSearchSuggestions "SH" = ["t-shirt"; "shirt"; "shoes"]%string.
Proof. rewrite generateSearchSuggestions_eq. reflexivity. Qed.

Example suggestions_for_s :
  generateSearchSuggestions "s" =
  ["t-shirt"; "jeans"; "sneakers"; "dress"; "shirt"]%string.
Proof. rewrite generateSearchSuggestions_eq. reflexivity. Qed.

Lemma suggestionsSchema_inv (params : string -> JS.value) (v : Params) :
  suggestionsSchema params = Ok v ->
  Zod.string_max 50 (params "query"%string) = Ok (query v) /\
  Zod.default (JS.Num 5) (Zod.coerce_number_min_max 1 10)
              (params "limit"%string) = Ok (limit v).
Proof.
  unfold suggestionsSchema.
  destruct (Zod.string_max 50 _) as [q |];
    destruct (Zod.default (JS.Num 5) _ _) as [l |]; try discriminate.
  intros [= <-]. split; reflexivity.
Qed.

Lemma suggestions_limit_bounds (params : string -> JS.value) (v : Params) :
  suggestionsSchema params = Ok v -> 1 <= limit v <= 10.
Proof.
  intros H. apply suggestionsSchema_inv in H. destruct H as [_ Hl].
  unfold Zod.default in Hl.
  destruct (params "limit"%string);
    apply coerce_number_min_max_Ok in Hl; apply Hl.
Qed.

(** Cutting at a bound of at least one keeps the whole part of it. *)
Lemma slice0_floor {A : Type} (n : R) (l : list A) :
  0 <= n -> JS.slice0 n l = firstn (Z.to_nat (Int_part n)) l.
Proof.
  intros Hn. unfold JS.slice0, JS.toInteger.
  destruct (Rlt_dec n 0); [lra |].
  destruct (Z.ltb_spec (Int_part n) 0) as [Hneg | _]; [| reflexivity].
  exfalso. destruct (base_Int_part n) as [_ Hhi].
  assert (IZR (Int_part n) <= -1) by (apply IZR_le; lia). lra.
Qed.

(** C7 (as amended). For every partial query and every requested bound [N]
    in [1, 10], the suggestions are the vocabulary entries that contain the
    query as a case-insensitive substring (all entries when the query is
    empty), in vocabulary order, cut to the first [min(N, 5)]: at most [N]
    and at most five strings, each from the vocabulary and containing the
    query; for the empty query, the first [min(N, 5)] vocabulary entries. *)
Theorem suggestions_capped_at_five (sp : URLSearchParams) (v : Params) :
  suggestionsSchema (paramsOf sp) = Ok v ->
  let N := limit v in
  let q := query v in
  let l :=
    firstn (Nat.min (Z.to_nat (Int_part N)) 5)
      (if JS.nonEmpty q
       then filter (fun suggestion =>
                      JS.includes (JS.toLowerCase suggestion)
                                  (JS.toLowerCase q))
                   suggestions
       else suggestions) in
  1 <= N <= 10 /\
  GET sp = success l /\
  INR (List.length l) <= N /\
  (List.length l <= 5)%nat /\
  (forall s, In s l ->
             In s suggestions /\
             (JS.nonEmpty q = true ->
              JS.includes (JS.toLowerCase s) (JS.toLowerCase q) = true)) /\
  (JS.nonEmpty q = false ->
   l = firstn (Nat.min (Z.to_nat (Int_part N)) 5) suggestions).
Proof.
  intros Hv N q l.
  assert (HN : 1 <= N <= 10) by (eapply suggestions_limit_bounds; eassumption).
  assert (Hget : JS.slice0 N (generateSearchSuggestions q) = l).
  { rewrite generateSearchSuggestions_eq, slice0_floor by lra.
    rewrite firstn_firstn. reflexivity. }
  split; [exact HN |]. split; [| split; [| split; [| split]]].
  - unfold GET. rewrite Hv. fold N q. rewrite Hget. reflexivity.
  - rewrite <- Hget. apply length_slice0. lra.
  - unfold l. rewrite length_firstn. lia.
  - intros s Hs. unfold l in Hs. apply In_firstn in Hs.
    destruct (JS.nonEmpty q).
    + apply filter_In in Hs. destruct Hs as [Hin Hinc].
      split; [exact Hin | intros _; exact Hinc].
    + split; [exact Hs | discriminate].
  - intros Hq. unfold l. rewrite Hq. reflexivity.
Qed.

Lemma limit10_validated :
  suggestionsSchema (paramsOf [("limit", "10")]%string) =
  Ok {| query := ""; limit := 10 |}.
Proof.
  unfold suggestionsSchema.
  change (paramsOf [("limit", "10")]%string "query"%string) with (JS.Str "").
  change (paramsOf [("limit", "10")]%string "limit"%string)
    with (JS.Str "10").
  unfold Zod.default.
  rewrite (coerce_number_min_max_in 1 10 10); [reflexivity | reflexivity | lra].
Qed.

(** C7 (counterexample). With no query and [limit=10] the route answers the
    first five vocabulary entries, not the first ten. *)
Lemma empty_query_limit_ten_gives_five :
  GET [("limit", "10")]%string =
  success ["hoodie"; "t-shirt"; "jacket"; "jeans"; "sneakers"]%string /\
  ["hoodie"; "t-shirt"; "jacket"; "jeans"; "sneakers"]%string
  <> firstn 10 suggestions.
Proof.
  split; [| discriminate].
  unfold GET. rewrite limit10_validated.
  cbv beta iota zeta delta [limit query].
  rewrite generateSearchSuggestions_eq. rewrite (slice0_IZR 10) by lia.
  reflexivity.
Qed.

Lemma suggestions_capped_at_five_witness :
  let N := 10 in
  let q := ""%string in
  let l := firstn (Nat.min (Z.to_nat (Int_part N)) 5) suggestions in
  1 <= N <= 10 /\
  GET [("limit", "10")]%string = success l /\
  INR (List.length l) <= N /\
  (List.length l <= 5)%nat /\
  (forall s, In s l ->
             In s suggestions /\
             (JS.nonEmpty q = true ->
              JS.includes (JS.toLowerCase s) (JS.toLowerCase q) = true)) /\
  (JS.nonEmpty q = false ->
   l = firstn (Nat.min (Z.to_nat (Int_part N)) 5) suggestions).
Proof.
  exact (suggestions_capped_at_five [("limit", "10")]%string _
           limit10_validated).
Defined.

End Suggestions.

(** ** The product detail lookup *)

Section ProductDetail.

Import ProductRoute.

Lemma round1_0 : round1 0 = 0.
Proof.
  unfold round1, JS.round.
  replace (Int_part (0 * 10 + / 2)) with 0%Z
    by (apply Int_part_spec; lra).
  lra.
Qed.

(** Away from distance zero the detail route reports what the search route
    reports: the rounding of the same distance. *)
Lemma reported_nonzero (la ln : string) (a b : R) (m : Merchant) :
  JS.nonEmpty la = true -> JS.nonEmpty ln = true ->
  JS.parseFloat la = JS.Finite a -> JS.parseFloat ln = JS.Finite b ->
  calculateDistance a b (merchant_latitude m) (merchant_longitude m) <> 0 ->
  reported (distanceTo (JS.Str la) (JS.Str ln) m) =
  Some (round1 (calculateDistance a b (merchant_latitude m)
                                  (merchant_longitude m))).
Proof.
  intros Hla Hln Ha Hb Hd. unfold distanceTo, reported.
  rewrite Hla, Hln, Ha, Hb. simpl.
  destruct (Req_dec_T _ 0); [contradiction | reflexivity].
Qed.

(** With no coordinate in the query string the distance is left out. *)
Lemma reported_no_coordinate (sp : URLSearchParams) (m : Merchant) :
  get sp "lat" = JS.Null \/ get sp "lng" = JS.Null ->
  reported (distanceTo (get sp "lat") (get sp "lng") m) = None.
Proof.
  intros [H | H]; rewrite H; unfold distanceTo.
  - reflexivity.
  - destruct (get sp "lat"); reflexivity.
Qed.

(** C8. A lookup whose query coordinate is the coordinate of the product's
    merchant computes distance [0] and leaves the distance out of the
    response, where the search path reports [0]. *)
Theorem detail_omits_zero_distance (env : Env) (db : Prisma.Client)
        (productId : string) (sp : URLSearchParams) (p : Product)
        (la ln : string) (v : SearchRoute.Params) :
  Prisma.product_findUnique db productId = Ok (Some p) ->
  get sp "lat" = JS.Str la -> JS.nonEmpty la = true ->
  get sp "lng" = JS.Str ln -> JS.nonEmpty ln = true ->
  JS.parseFloat la = JS.Finite (merchant_latitude (product_merchant p)) ->
  JS.parseFloat ln = JS.Finite (merchant_longitude (product_merchant p)) ->
  (SearchRoute.inStock v && (totalStockOf p =? 0)%Z)%bool = false ->
  0 <= SearchRoute.radius v ->
  GET env db productId sp = success (transformProduct env p None) /\
  SearchRoute.withDistance env v
    (merchant_latitude (product_merchant p))
    (merchant_longitude (product_merchant p)) p =
  Some {| SearchRoute.product := transformProduct env p (Some 0);
          SearchRoute.itemDistance := 0 |}.
Proof.
  intros Hfind Hlat Hla Hlng Hln Ha Hb Hstock Hr. split.
  - unfold GET. rewrite Hfind, Hlat, Hlng.
    unfold distanceTo, reported. rewrite Hla, Hln, Ha, Hb. simpl.
    rewrite calculateDistance_same.
    destruct (Req_dec_T 0 0); [reflexivity | contradiction].
  - rewrite <- round1_0 at 1. apply withDistance_kept.
    + apply calculateDistance_same.
    + exact Hr.
    + exact Hstock.
Qed.

Lemma detail_omits_zero_distance_witness :
  GET Sample.env (Sample.database Sample.hoodies false) "p1"
      [("lat", "-28.6434"); ("lng", "153.6148")]%string
  = success (transformProduct Sample.env Sample.byronHoodie None) /\
  SearchRoute.withDistance Sample.env
    {| SearchRoute.query := "hoodie";
       SearchRoute.lat := Some (-28.6434);
       SearchRoute.lng := Some 153.6148;
       SearchRoute.radius := 5;
       SearchRoute.limit := 10;
       SearchRoute.category := Some "clothing"%string;
       SearchRoute.inStock := true |}
    (-28.6434) 153.6148 Sample.byronHoodie =
  Some {| SearchRoute.product :=
            transformProduct Sample.env Sample.byronHoodie (Some 0);
          SearchRoute.itemDistance := 0 |}.
Proof.
  apply (detail_omits_zero_distance
           Sample.env (Sample.database Sample.hoodies false) "p1"
           [("lat", "-28.6434"); ("lng", "153.6148")]%string
           Sample.byronHoodie "-28.6434" "153.6148");
    try reflexivity.
  simpl. lra.
Defined.

(** C10. When the catalog read goes through, the lookup answers
    [PRODUCT_NOT_FOUND] exactly when no product row has the given identity;
    otherwise it answers the row with that identity, whatever the active
    flags of the product and of its merchant. *)
Theorem detail_ignores_active_flags (env : Env) (db : Prisma.Client)
        (productId : string) (sp : URLSearchParams) :
  Prisma.readFails db = false ->
  (GET env db productId sp =
   failure 404 "PRODUCT_NOT_FOUND" "Product not found" None
   <-> forall p, In p (Prisma.products db) -> product_id p <> productId) /\
  (forall p,
      find (fun p => String.eqb (product_id p) productId) (Prisma.products db)
      = Some p ->
      product_id p = productId /\
      GET env db productId sp =
      success (transformProduct env p
                 (reported (distanceTo (get sp "lat") (get sp "lng")
                                       (product_merchant p))))).
Proof.
  intros Hread. unfold GET, Prisma.product_findUnique. rewrite Hread.
  destruct (find _ (Prisma.products db)) as [p |] eqn:Hfind.
  - split.
    + split; [discriminate |].
      intros Hnone. apply find_some in Hfind. destruct Hfind as [Hin Heq].
      apply String.eqb_eq in Heq. exfalso. exact (Hnone p Hin Heq).
    + intros p' [= <-]. split; [| reflexivity].
      apply find_some in Hfind. apply String.eqb_eq. apply Hfind.
  - split; [| discriminate].
    split; [| reflexivity].
    intros _ p Hin Heq.
    apply (find_none _ _ Hfind) in Hin. apply String.eqb_eq in Heq.
    congruence.
Qed.

(** An inactive product of an inactive merchant is returned as it is. *)
Lemma detail_ignores_active_flags_witness :
  (GET Sample.env (Sample.database [Sample.retired] false) "p9" [] =
   failure 404 "PRODUCT_NOT_FOUND" "Product not found" None
   <-> forall p, In p [Sample.retired] -> product_id p <> "p9"%string) /\
  (forall p,
      find (fun p => String.eqb (product_id p) "p9") [Sample.retired]
      = Some p ->
      product_id p = "p9"%string /\
      GET Sample.env (Sample.database [Sample.retired] false) "p9" [] =
      success (transformProduct Sample.env p
                 (reported (distanceTo (get [] "lat") (get [] "lng")
                                       (product_merchant p))))).
Proof.
  exact (detail_ignores_active_flags
           Sample.env (Sample.database [Sample.retired] false) "p9" []
           eq_refl).
Defined.

Example retired_is_returned :
  GET Sample.env (Sample.database [Sample.retired] false) "p9" [] =
  success (transformProduct Sample.env Sample.retired None).
Proof. reflexivity. Qed.

End ProductDetail.

(** * Further properties of the code *)

(** ** The distance function *)

Lemma atan2_nonneg (y x : R) : 0 <= y -> 0 <= x -> 0 <= JS.atan2 y x.
Proof.
  intros Hy Hx. unfold JS.atan2. assert (Hpi := PI_RGT_0).
  destruct (Rlt_dec 0 x) as [Hpos | Hzero].
  - assert (Hq : 0 <= y / x)
      by (apply Rmult_le_pos;
          [exact Hy | left; apply Rinv_0_lt_compat; exact Hpos]).
    destruct Hq as [Hq | <-]; [| rewrite atan_0; lra].
    left. rewrite <- atan_0. apply atan_increasing. exact Hq.
  - destruct (Rlt_dec x 0); [lra |].
    destruct (Rlt_dec 0 y); [lra |].
    destruct (Rlt_dec y 0); lra.
Qed.

(** The distance is never negative: for all coordinates the comparison
    [distance < 0] fails, both arguments of [Math.atan2] being square
    roots. *)
Theorem calculateDistance_never_negative (lat1 lng1 lat2 lng2 : R) :
  ~ calculateDistance lat1 lng1 lat2 lng2 < 0.
Proof.
  unfold calculateDistance. cbv zeta. apply Rle_not_lt.
  assert (H : 0 <= JS.atan2
                     (sqrt (sin (toRadians (lat2 - lat1) / 2) *
                            sin (toRadians (lat2 - lat1) / 2) +
                            cos (toRadians lat1) * cos (toRadians lat2) *
                            sin (toRadians (lng2 - lng1) / 2) *
                            sin (toRadians (lng2 - lng1) / 2)))
                     (sqrt (1 - (sin (toRadians (lat2 - lat1) / 2) *
                                 sin (toRadians (lat2 - lat1) / 2) +
                                 cos (toRadians lat1) * cos (toRadians lat2) *
                                 sin (toRadians (lng2 - lng1) / 2) *
                                 sin (toRadians (lng2 - lng1) / 2)))))
    by (apply atan2_nonneg; apply sqrt_pos).
  lra.
Qed.

(** The distance helper of the map service, which takes its points as
    [[longitude, latitude]], computes what [calculateDistance] computes for
    the same two points, and gives the same value in both directions. *)
Theorem mapbox_distance_agrees (lat1 lng1 lat2 lng2 : R) :
  MapboxService.calculateDistance (lng1, lat1) (lng2, lat2)
  = calculateDistance lat1 lng1 lat2 lng2 /\
  MapboxService.calculateDistance (lng1, lat1) (lng2, lat2)
  = MapboxService.calculateDistance (lng2, lat2) (lng1, lat1).
Proof.
  assert (E : forall a b c d,
             MapboxService.calculateDistance (b, a) (d, c)
             = calculateDistance a b c d) by reflexivity.
  rewrite !E. split; [reflexivity |].
  unfold calculateDistance, toRadians.
  replace ((lat1 - lat2) * (PI / 180) / 2)
    with (- ((lat2 - lat1) * (PI / 180) / 2)) by lra.
  replace ((lng1 - lng2) * (PI / 180) / 2)
    with (- ((lng2 - lng1) * (PI / 180) / 2)) by lra.
  rewrite !sin_neg.
  set (s1 := sin _). set (s2 := sin _).
  set (c1 := cos _). set (c2 := cos _).
  replace (- s1 * - s1 + c2 * c1 * - s2 * - s2)
    with (s1 * s1 + c1 * c2 * s2 * s2) by ring.
  reflexivity.
Qed.

(** A point is at distance zero from itself; the search route reports that
    distance as [0] and [formatDistance] shows it as ["0m"]. *)
Theorem calculateDistance_zero (lat lng : R) :
  calculateDistance lat lng lat lng = 0 /\
  round1 (calculateDistance lat lng lat lng) = 0 /\
  formatDistance (round1 (calculateDistance lat lng lat lng))
  = Some "0m"%string.
Proof.
  rewrite calculateDistance_same, round1_0.
  split; [reflexivity |]. split; [reflexivity |].
  unfold formatDistance. destruct (Rlt_dec 0 1); [| lra].
  replace (Int_part (0 * 1000 + / 2)) with 0%Z
    by (apply Int_part_spec; lra).
  reflexivity.
Qed.

(** ** Formatting a distance *)

Lemma Int_part_half (n : Z) : Int_part (IZR n + / 2) = n.
Proof.
  symmetry. apply Int_part_spec. lra.
Qed.

Lemma round1_tenths (d : R) : round1 d = IZR (Int_part (d * 10 + / 2)) / 10.
Proof. reflexivity. Qed.

(** What [formatDistance] shows for a number of tenths of a kilometre. *)
Lemma formatDistance_tenths (n : Z) :
  (0 <= n < 10 ^ 21)%Z ->
  formatDistance (IZR n / 10) =
  Some (if (n <? 10)%Z
        then (Format.digits (100 * n) ++ "m")%string
        else ((Format.digits (n / 10) ++ "." ++ Format.digits (n mod 10))
                ++ "km")%string).
Proof.
  intros [Hlo Hhi]. unfold formatDistance.
  assert (Hn : 0 <= IZR n) by (apply IZR_le in Hlo; exact Hlo).
  destruct (Z.ltb_spec n 10) as [Hsmall | Hbig].
  - assert (IZR n <= 9) by (apply IZR_le; lia).
    destruct (Rlt_dec (IZR n / 10) 1); [| lra].
    replace (IZR n / 10 * 1000 + / 2) with (IZR (100 * n) + / 2)
      by (rewrite mult_IZR; lra).
    rewrite Int_part_half. unfold Format.integerToString.
    destruct (Z.ltb_spec (Z.abs (100 * n)) (10 ^ 21)); [reflexivity | lia].
  - assert (10 <= IZR n) by (apply IZR_le in Hbig; exact Hbig).
    destruct (Rlt_dec (IZR n / 10) 1); [lra |].
    unfold Format.toFixed1.
    rewrite Rabs_pos_eq by lra.
    assert (Hup : IZR n < IZR (10 ^ 21)) by (apply IZR_lt; exact Hhi).
    destruct (Rle_dec (IZR (10 ^ 21)) (IZR n / 10)); [lra |].
    replace (IZR n / 10 * 10 + / 2) with (IZR n + / 2) by lra.
    rewrite Int_part_half.
    destruct (Rlt_dec (IZR n / 10) 0); [lra |]. reflexivity.
Qed.

(** The label of a reported distance shows the reported value itself: below
    one kilometre as a whole number of hundreds of metres, from one
    kilometre on as kilometres with one decimal. *)
Theorem formatDistance_of_reported (d : R) :
  0 <= d <= IZR (10 ^ 19) ->
  let n := Int_part (d * 10 + / 2) in
  formatDistance (round1 d) =
  Some (if (n <? 10)%Z
        then (Format.digits (100 * n) ++ "m")%string
        else ((Format.digits (n / 10) ++ "." ++ Format.digits (n mod 10))
                ++ "km")%string).
Proof.
  intros [Hlo Hhi] n. rewrite round1_tenths. fold n.
  apply formatDistance_tenths.
  destruct (base_Int_part (d * 10 + / 2)) as [H1 H2]. fold n in H1, H2.
  split.
  - apply Z.lt_succ_r. apply lt_IZR. rewrite succ_IZR. lra.
  - apply lt_IZR.
    assert (E : IZR (10 ^ 21) = 100 * IZR (10 ^ 19))
      by (rewrite <- mult_IZR; reflexivity).
    assert (1 <= IZR (10 ^ 19)) by (apply IZR_le; lia).
    lra.
Qed.

Lemma formatDistance_of_reported_witness :
  formatDistance (round1 0.26) = Some "300m"%string /\
  formatDistance (round1 2.34) = Some "2.3km"%string.
Proof.
  split.
  - rewrite formatDistance_of_reported
      by (split; [lra | apply Rle_trans with 1; [lra | apply IZR_le; lia]]).
    replace (Int_part (0.26 * 10 + / 2)) with 3%Z
      by (apply Int_part_spec; lra).
    reflexivity.
  - rewrite formatDistance_of_reported
      by (split; [lra | apply Rle_trans with 3; [lra | apply IZR_le; lia]]).
    replace (Int_part (2.34 * 10 + / 2)) with 23%Z
      by (apply Int_part_spec; lra).
    reflexivity.
Defined.

(** Around the switch of units: from 999.5 m up to one kilometre the label
    is ["1000m"], and from one kilometre up to 1.05 km it is ["1.0km"]. *)
Theorem formatDistance_unit_switch (km : R) :
  0.9995 <= km < 1.05 ->
  formatDistance km =
  Some (if Rlt_dec km 1 then "1000m" else "1.0km")%string.
Proof.
  unfold formatDistance. intros [Hlo Hhi].
  destruct (Rlt_dec km 1).
  - replace (Int_part (km * 1000 + / 2)) with 1000%Z
      by (apply Int_part_spec; lra).
    reflexivity.
  - unfold Format.toFixed1. rewrite Rabs_pos_eq by lra.
    assert (2 <= IZR (10 ^ 21)) by (apply IZR_le; lia).
    destruct (Rle_dec (IZR (10 ^ 21)) km); [lra |].
    replace (Int_part (km * 10 + / 2)) with 10%Z
      by (apply Int_part_spec; lra).
    destruct (Rlt_dec km 0); [lra |]. reflexivity.
Qed.

Lemma formatDistance_unit_switch_witness :
  formatDistance 0.9997 = Some "1000m"%string /\
  formatDistance 1.04 = Some "1.0km"%string.
Proof.
  split.
  - rewrite formatDistance_unit_switch by lra.
    destruct (Rlt_dec 0.9997 1); [reflexivity | lra].
  - rewrite formatDistance_unit_switch by lra.
    destruct (Rlt_dec 1.04 1); [lra | reflexivity].
Defined.

(** ** More on the search route *)

Section SearchMore.

Import SearchRoute.
Context {collation : Collation}.

(** Every way a request can end. *)
Lemma GET_outcome (env : Env) (db : Prisma.Client) (sp : URLSearchParams) :
  (exists e, GET env db sp = ({| status := 503; body := inr e |}, db) /\
             ~ configured env) \/
  configured env /\
  ((exists issues,
       searchSchema (get sp) = Throw (ZodError issues) /\
       GET env db sp =
       (failure 400 "INVALID_PARAMS" "Invalid search parameters"
                (Some issues), db)) \/
   (GET env db sp =
    (failure 500 "SEARCH_ERROR" "Failed to search products" None, db)) \/
   (exists v rows,
       searchSchema (get sp) = Ok v /\
       Prisma.product_findMany db (whereClause v) (limit v * 2) = Ok rows /\
       Prisma.writeFails db = false /\
       let found := map product (rank env v (userLat v) (userLng v) rows) in
       GET env db sp =
       (respond env v found,
        {| Prisma.products := Prisma.products db;
           Prisma.searches :=
             Prisma.searches db ++ [logged v (List.length found)];
           Prisma.readFails := Prisma.readFails db;
           Prisma.writeFails := Prisma.writeFails db |}))).
Proof.
  unfold GET.
  destruct (DATABASE_URL env) as [u |] eqn:Hu;
    [destruct (JS.nonEmpty u) eqn:Hne |]; simpl negb; cbv iota.
  2:{ left. eexists. split; [reflexivity |].
      intros (u' & Hu' & Hne'). congruence. }
  2:{ left. eexists. split; [reflexivity |].
      intros (u' & Hu' & Hne'). congruence. }
  right. split; [exists u; split; [exact Hu | exact Hne] |].
  unfold search.
  destruct (searchSchema (get sp)) as [v | e] eqn:Hv; simpl bind.
  2:{ unfold searchSchema in Hv.
      destruct (Zod.string_min_max 1 100 _);
        destruct (Zod.optional (Zod.coerce_number_min_max (-90) 90) _);
        destruct (Zod.optional (Zod.coerce_number_min_max (-180) 180) _);
        destruct (Zod.default (JS.Num 10) _ _);
        destruct (Zod.default (JS.Num 20) _ _);
        destruct (Zod.optional Zod.string_ _);
        destruct (Zod.default (JS.Bool true) _ _);
        try discriminate; injection Hv as <-;
        left; eexists; split; reflexivity. }
  destruct (Prisma.product_findMany db (whereClause v) (limit v * 2))
    as [rows | e] eqn:Hrows; simpl bind.
  2:{ right. left.
      unfold Prisma.product_findMany in Hrows.
      destruct (Prisma.readFails db); [injection Hrows as <-; reflexivity |].
      destruct (Prisma.asInt _); [discriminate |].
      injection Hrows as <-. reflexivity. }
  unfold Prisma.search_create.
  destruct (Prisma.writeFails db) eqn:Hw; simpl bind.
  - right. left. reflexivity.
  - right. right. exists v, rows.
    split; [reflexivity |]. split; [exact Hrows |]. split; [reflexivity |].
    cbv zeta. unfold logged. reflexivity.
Qed.

Lemma GET_success_state (env : Env) (db db' : Prisma.Client)
      (sp : URLSearchParams) (r : Response SearchData) (data : SearchData) :
  GET env db sp = (r, db') ->
  body r = inl data ->
  exists v rows,
    searchSchema (get sp) = Ok v /\
    Prisma.product_findMany db (whereClause v) (limit v * 2) = Ok rows /\
    let found := map product (rank env v (userLat v) (userLng v) rows) in
    r = respond env v found /\
    db' = {| Prisma.products := Prisma.products db;
             Prisma.searches :=
               Prisma.searches db ++ [logged v (List.length found)];
             Prisma.readFails := Prisma.readFails db;
             Prisma.writeFails := Prisma.writeFails db |}.
Proof.
  intros HG Hbody.
  destruct (GET_outcome env db sp)
    as [(e & H & _)
       | [_ [(issues & _ & H)
            | [H | (v & rows & Hv & Hrows & _ & H)]]]];
    rewrite H in HG; injection HG as <- <-; try discriminate.
  exists v, rows. cbv zeta. repeat split; assumption.
Qed.

(** A search that goes through appends exactly one row to the search log,
    and the row repeats the response: its result count is the number of
    products returned ([pagination.total]), its query, coordinate and radius
    are those of [searchMeta]; the catalog is left as it was. *)
Theorem search_logs_what_it_returns (env : Env) (db db' : Prisma.Client)
        (sp : URLSearchParams) (r : Response SearchData)
        (data : SearchData) :
  GET env db sp = (r, db') ->
  body r = inl data ->
  exists entry,
    Prisma.searches db' = Prisma.searches db ++ [entry] /\
    search_results entry = Z.of_nat (List.length (data_products data)) /\
    search_results entry = total (pagination data) /\
    search_query entry = metaQuery (searchMeta data) /\
    search_latitude entry = Some (latitude (location (searchMeta data))) /\
    search_longitude entry = Some (longitude (location (searchMeta data))) /\
    search_radius entry = Some (metaRadius (searchMeta data)) /\
    Prisma.products db' = Prisma.products db.
Proof.
  intros HG Hbody.
  destruct (GET_success_state _ _ _ _ _ _ HG Hbody)
    as (v & rows & _ & _ & Hr & Hdb).
  cbv zeta in Hr, Hdb. subst r db'.
  unfold respond, success in Hbody. simpl in Hbody. injection Hbody as <-.
  eexists. simpl. repeat split; reflexivity.
Qed.

(** A search answered with an error of any kind records nothing: the store
    is exactly as before. *)
Theorem failed_search_records_nothing (env : Env) (db db' : Prisma.Client)
        (sp : URLSearchParams) (r : Response SearchData) (e : APIError) :
  GET env db sp = (r, db') ->
  body r = inr e ->
  db' = db.
Proof.
  intros HG Hbody.
  destruct (GET_outcome env db sp)
    as [(e' & H & _)
       | [_ [(issues & _ & H) | [H | (v & rows & _ & _ & _ & H)]]]];
    rewrite H in HG; injection HG as <- <-; try reflexivity.
  discriminate.
Qed.

(** The pagination block: [total] is the number of products returned and
    never exceeds [limit], which is the validated limit between 1 and 100;
    [page] is always 1 and [hasMore] always false. *)
Theorem pagination_block (env : Env) (db : Prisma.Client)
        (sp : URLSearchParams) (data : SearchData) :
  body (fst (GET env db sp)) = inl data ->
  total (pagination data) = Z.of_nat (List.length (data_products data)) /\
  IZR (total (pagination data)) <= pageLimit (pagination data) /\
  1 <= pageLimit (pagination data) <= 100 /\
  page (pagination data) = 1%Z /\
  hasMore (pagination data) = false.
Proof.
  intros Hok. apply GET_success_inv in Hok.
  destruct Hok as (v & rows & Hv & _ & _ & Hresp).
  unfold respond, success in Hresp. injection Hresp as <-. simpl.
  apply validated_bounds in Hv. destruct Hv as [_ Hl].
  repeat split; try apply Hl.
  rewrite <- INR_IZR_INZ, length_map. unfold rank.
  apply length_slice0. lra.
Qed.

(** The search metadata of a success response repeats parameters that
    passed validation: a query of 1 to 100 characters, a radius between 1
    and 50, a coordinate that [isValidCoordinate] accepts, and the
    difference of the two clock readings. *)
Theorem search_meta_is_valid (env : Env) (db : Prisma.Client)
        (sp : URLSearchParams) (data : SearchData) :
  body (fst (GET env db sp)) = inl data ->
  let m := searchMeta data in
  (1 <= String.length (metaQuery m) <= 100)%nat /\
  1 <= metaRadius m <= 50 /\
  isValidCoordinate (latitude (location m)) (longitude (location m)) = true /\
  executionTime m = (endTime env - startTime env)%Z.
Proof.
  intros Hok. apply GET_success_inv in Hok.
  destruct Hok as (v & rows & Hv & _ & _ & Hresp).
  unfold respond, success in Hresp. injection Hresp as <-. simpl.
  assert (Hb := validated_bounds _ _ Hv).
  apply searchSchema_inv in Hv.
  destruct Hv as (Hq & Hla & Hln & _).
  split; [| split; [apply Hb | split; [| reflexivity]]].
  - unfold Zod.string_min_max in Hq.
    destruct (get sp "query"); try discriminate.
    destruct (Nat.ltb_spec (String.length s) 1);
      destruct (Nat.ltb_spec 100 (String.length s));
      simpl in Hq; try discriminate.
    injection Hq as <-. lia.
  - assert (Hlat : -90 <= userLat v <= 90).
    { unfold userLat. unfold Zod.optional in Hla.
      destruct (get sp "lat");
        try (destruct (Zod.coerce_number_min_max (-90) 90 _) eqn:E;
             [apply coerce_number_min_max_Ok in E;
              simpl in Hla; injection Hla as <-; apply E
             | discriminate]).
      injection Hla as <-. simpl. lra. }
    assert (Hlng : -180 <= userLng v <= 180).
    { unfold userLng. unfold Zod.optional in Hln.
      destruct (get sp "lng");
        try (destruct (Zod.coerce_number_min_max (-180) 180 _) eqn:E;
             [apply coerce_number_min_max_Ok in E;
              simpl in Hln; injection Hln as <-; apply E
             | discriminate]).
      injection Hln as <-. simpl. lra. }
    unfold isValidCoordinate, Format.le.
    destruct (Rle_dec (-90) (userLat v)); [| lra].
    destruct (Rle_dec (userLat v) 90); [| lra].
    destruct (Rle_dec (-180) (userLng v)); [| lra].
    destruct (Rle_dec (userLng v) 180); [| lra].
    reflexivity.
Qed.

(** Validation comes before any access to the store: a request answered
    [INVALID_PARAMS] gets the very same answer whatever the state of the
    store, even one whose reads fail. *)
Theorem invalid_params_whatever_the_store (env : Env)
        (db1 db2 : Prisma.Client) (sp : URLSearchParams) :
  status (fst (GET env db1 sp)) = 400%Z ->
  fst (GET env db2 sp) = fst (GET env db1 sp).
Proof.
  intros H400.
  destruct (GET_outcome env db1 sp)
    as [(e' & H & _)
       | [Hc [(issues & Hv & H) | [H | (v & rows & _ & _ & _ & H)]]]];
    rewrite H in H400 |- *; try discriminate.
  rewrite GET_configured by exact Hc.
  unfold search. rewrite Hv. reflexivity.
Qed.

End SearchMore.

Section SearchResultsMore.

Import SearchRoute.
Context {collation : Collation}.

(** Every returned product is the shaped form of a row that the catalog
    read fetched for the validated parameters. *)
Lemma returned_row (env : Env) (db : Prisma.Client) (sp : URLSearchParams)
      (data : SearchData) (p : ProductWithMerchant) :
  body (fst (GET env db sp)) = inl data ->
  In p (data_products data) ->
  exists v rows row d,
    searchSchema (get sp) = Ok v /\
    Prisma.product_findMany db (whereClause v) (limit v * 2) = Ok rows /\
    In row rows /\
    d = calculateDistance (userLat v) (userLng v)
                          (merchant_latitude (product_merchant row))
                          (merchant_longitude (product_merchant row)) /\
    p = transformProduct env row (Some (round1 d)) /\
    d <= radius v /\
    (inStock v = true -> totalStockOf row <> 0%Z) /\
    metaQuery (searchMeta data) = query v.
Proof.
  intros Hok Hin. apply GET_success_inv in Hok.
  destruct Hok as (v & rows & Hv & Hrows & _ & Hresp).
  unfold respond, success in Hresp. injection Hresp as <-.
  simpl in Hin. apply in_map_iff in Hin. destruct Hin as (item & <- & Hitem).
  apply In_rank in Hitem. destruct Hitem as (row & Hrow & Hkept).
  apply withDistance_Some in Hkept. cbv zeta in Hkept.
  destruct Hkept as (_ & Hp & Hd & Hs).
  exists v, rows, row. eexists.
  repeat split; try eassumption; reflexivity.
Qed.

(** Every returned product is an active product of an active merchant whose
    name, description or category contains the query, case-insensitively;
    it is one of the first [2 * limit] such rows of the catalog. *)
Theorem results_are_active_matches (env : Env) (db : Prisma.Client)
        (sp : URLSearchParams) (data : SearchData)
        (p : ProductWithMerchant) :
  body (fst (GET env db sp)) = inl data ->
  In p (data_products data) ->
  exists row,
    In row (Prisma.products db) /\
    prod_id p = product_id row /\
    prod_name p = product_name row /\
    id (merchant p) = merchant_id (product_merchant row) /\
    product_isActive row = true /\
    merchant_isActive (product_merchant row) = true /\
    (let q := metaQuery (searchMeta data) in
     Prisma.containsInsensitive (Some (product_name row)) q
     || Prisma.containsInsensitive (product_description row) q
     || Prisma.containsInsensitive (product_category row) q = true) /\
    exists v n,
      searchSchema (get sp) = Ok v /\
      limit v * 2 = IZR n /\
      In row (firstn (Z.to_nat n)
                     (filter (Prisma.satisfies (whereClause v))
                             (Prisma.products db))).
Proof.
  intros Hok Hin.
  destruct (returned_row _ _ _ _ _ Hok Hin)
    as (v & rows & row & d & Hv & Hrows & Hrow & _ & -> & _ & _ & Hq).
  assert (Hne : JS.nonEmpty (query v) = true).
  { apply searchSchema_inv in Hv. destruct Hv as (Hquery & _).
    unfold Zod.string_min_max in Hquery.
    destruct (get sp "query"); try discriminate.
    destruct (Nat.ltb_spec (String.length s) 1);
      destruct (Nat.ltb_spec 100 (String.length s));
      simpl in Hquery; try discriminate.
    injection Hquery as <-. destruct s; [simpl in *; lia | reflexivity]. }
  destruct (In_findMany _ _ _ _ _ Hrows Hrow) as [Hdb Hsat].
  unfold Prisma.satisfies, whereClause in Hsat. simpl in Hsat.
  rewrite Hne in Hsat.
  apply andb_prop in Hsat. destruct Hsat as [Hsat _].
  apply andb_prop in Hsat. destruct Hsat as [Hsat Htext].
  apply andb_prop in Hsat. destruct Hsat as [Hact Hmact].
  exists row. simpl. rewrite Hq.
  split; [exact Hdb |]. do 3 (split; [reflexivity |]).
  split; [destruct (product_isActive row); [reflexivity | discriminate] |].
  split; [destruct (merchant_isActive (product_merchant row));
          [reflexivity | discriminate] |].
  split; [exact Htext |].
  unfold Prisma.product_findMany in Hrows.
  destruct (Prisma.readFails db); [discriminate |].
  unfold Prisma.asInt in Hrows.
  destruct (Req_dec_T (IZR (Int_part (limit v * 2))) (limit v * 2))
    as [Hint |]; [| discriminate].
  injection Hrows as <-.
  exists v, (Int_part (limit v * 2)). repeat split; auto.
Qed.

(** Any non-empty [inStock] value switches the stock filter on, the string
    ["false"] included: no returned product then has [totalStock] 0. *)
Theorem any_inStock_value_filters (env : Env) (db : Prisma.Client)
        (sp : URLSearchParams) (data : SearchData) (s : string) :
  body (fst (GET env db sp)) = inl data ->
  get sp "inStock" = JS.Str s ->
  JS.nonEmpty s = true ->
  forall p, In p (data_products data) -> totalStock p <> 0%Z.
Proof.
  intros Hok Hget Hs p Hin.
  destruct (returned_row _ _ _ _ _ Hok Hin)
    as (v & rows & row & d & Hv & _ & _ & _ & -> & _ & Hstock & _).
  apply searchSchema_inv in Hv.
  destruct Hv as (_ & _ & _ & _ & _ & _ & HinStock).
  rewrite Hget in HinStock. unfold Zod.default, Zod.coerce_boolean in HinStock.
  simpl in HinStock. rewrite Hs in HinStock. injection HinStock as HinStock.
  simpl. apply Hstock. symmetry. exact HinStock.
Qed.

End SearchResultsMore.

(** ** Sorting loses nothing *)

Lemma Permutation_insert {A : Type} (compare : A -> A -> R) (a : A)
      (l : list A) :
  Permutation (insert compare a l) (a :: l).
Proof.
  induction l as [| b l IH]; simpl; [reflexivity |].
  destruct (Rlt_dec 0 (compare a b)); [| reflexivity].
  rewrite IH. apply perm_swap.
Qed.

Lemma Permutation_sort {A : Type} (compare : A -> A -> R) (l : list A) :
  Permutation (sort compare l) l.
Proof.
  unfold sort. induction l as [| a l IH]; simpl; [reflexivity |].
  rewrite Permutation_insert. constructor. exact IH.
Qed.

Lemma slice0_all {A : Type} (n : R) (l : list A) :
  INR (List.length l) <= n -> JS.slice0 n l = l.
Proof.
  intros Hn. assert (0 <= n) by (generalize (pos_INR (List.length l)); lra).
  rewrite slice0_floor by assumption.
  apply firstn_all2.
  destruct (base_Int_part n) as [_ Hhi].
  apply Nat2Z.inj_le. rewrite Z2Nat.id.
  - apply Z.lt_succ_r. apply lt_IZR. rewrite succ_IZR, <- INR_IZR_INZ. lra.
  - apply Z.lt_succ_r. apply lt_IZR. rewrite succ_IZR. simpl. lra.
Qed.

Section RankingMore.

Import SearchRoute.
Context {collation : Collation}.

Lemma rank_all_kept (env : Env) (v : Params) (uLat uLng : R)
      (rows : list Product) :
  let kept := filterBoolean (map (withDistance env v uLat uLng) rows) in
  INR (List.length kept) <= limit v ->
  Permutation (rank env v uLat uLng rows) kept.
Proof.
  intros kept Hlen. unfold rank. fold kept.
  rewrite slice0_all.
  - apply Permutation_sort.
  - rewrite (Permutation_length (Permutation_sort compareItems kept)).
    exact Hlen.
Qed.

Lemma GET_success_products (env : Env) (db : Prisma.Client)
      (sp : URLSearchParams) (data : SearchData) (v : Params)
      (rows : list Product) :
  body (fst (GET env db sp)) = inl data ->
  searchSchema (get sp) = Ok v ->
  Prisma.product_findMany db (whereClause v) (limit v * 2) = Ok rows ->
  data_products data =
  map product (rank env v (userLat v) (userLng v) rows).
Proof.
  intros Hok Hv Hrows. apply GET_success_inv in Hok.
  destruct Hok as (v' & rows' & Hv' & Hrows' & _ & Hresp).
  rewrite Hv in Hv'. injection Hv' as <-.
  rewrite Hrows in Hrows'. injection Hrows' as <-.
  unfold respond, success in Hresp. injection Hresp as <-. reflexivity.
Qed.

(** When no more than [limit] of the fetched rows survive the radius and
    stock filters, the response holds every survivor exactly once: sorting
    and cutting neither drop nor repeat a product. *)
Theorem ranking_keeps_every_survivor (env : Env) (db : Prisma.Client)
        (sp : URLSearchParams) (data : SearchData) (v : Params)
        (rows : list Product) :
  body (fst (GET env db sp)) = inl data ->
  searchSchema (get sp) = Ok v ->
  Prisma.product_findMany db (whereClause v) (limit v * 2) = Ok rows ->
  let kept :=
    filterBoolean (map (withDistance env v (userLat v) (userLng v)) rows) in
  INR (List.length kept) <= limit v ->
  Permutation (data_products data) (map product kept).
Proof.
  intros Hok Hv Hrows kept Hlen.
  rewrite (GET_success_products _ _ _ _ _ _ Hok Hv Hrows).
  apply Permutation_map. apply rank_all_kept. exact Hlen.
Qed.

(** A fetched row whose merchant is within the radius, and which has stock
    or is searched with the stock filter off, is in the response with its
    rounded distance, provided no more than [limit] rows pass the
    filters. *)
Theorem fetched_row_in_radius_is_returned (env : Env) (db : Prisma.Client)
        (sp : URLSearchParams) (data : SearchData) (v : Params)
        (rows : list Product) (row : Product) :
  body (fst (GET env db sp)) = inl data ->
  searchSchema (get sp) = Ok v ->
  Prisma.product_findMany db (whereClause v) (limit v * 2) = Ok rows ->
  INR (List.length
         (filterBoolean
            (map (withDistance env v (userLat v) (userLng v)) rows)))
  <= limit v ->
  In row rows ->
  let d := calculateDistance (userLat v) (userLng v)
                             (merchant_latitude (product_merchant row))
                             (merchant_longitude (product_merchant row)) in
  d <= radius v ->
  inStock v = false \/ totalStockOf row <> 0%Z ->
  In (transformProduct env row (Some (round1 d))) (data_products data).
Proof.
  intros Hok Hv Hrows Hlen Hrow d Hd Hstock.
  rewrite (GET_success_products _ _ _ _ _ _ Hok Hv Hrows).
  apply in_map_iff.
  exists {| product := transformProduct env row (Some (round1 d));
            itemDistance := d |}.
  split; [reflexivity |].
  apply (Permutation_in _ (Permutation_sym (rank_all_kept _ _ _ _ _ Hlen))).
  apply In_filterBoolean. apply in_map_iff. exists row.
  split; [| exact Hrow].
  apply withDistance_kept; [reflexivity | exact Hd |].
  destruct Hstock as [-> | Hne]; [reflexivity |].
  apply Z.eqb_neq in Hne. rewrite Hne. apply andb_false_r.
Qed.

End RankingMore.

(** ** Stock totals *)

Lemma fold_left_quantities (vs : list ProductVariation) (acc : Z) :
  fold_left (fun sum variation => (sum + quantityOf variation)%Z) vs acc
  = (acc + fold_right Z.add 0%Z (map quantityOf vs))%Z.
Proof.
  revert acc. induction vs as [| x vs IH]; intros acc; simpl; [lia |].
  rewrite IH. lia.
Qed.

(** In both routes the [totalStock] of a product in the response is the sum
    of the inventory quantities of the variations listed with it. *)
Theorem totalStock_is_sum_of_listed_quantities
        {collation : Collation} (env : Env) (db : Prisma.Client)
        (sp : URLSearchParams) (productId : string) (data : SearchData)
        (p : ProductWithMerchant) :
  (body (fst (SearchRoute.GET env db sp)) = inl data /\
   In p (data_products data)) \/
  body (ProductRoute.GET env db productId sp) = inl p ->
  totalStock p =
  fold_right Z.add 0%Z (map (fun v => quantity (inventory v)) (variations p)).
Proof.
  assert (Hshape : forall row dist,
             totalStock (transformProduct env row dist) =
             fold_right Z.add 0%Z
               (map (fun v => quantity (inventory v))
                    (variations (transformProduct env row dist)))).
  { intros row dist. simpl. unfold totalStockOf.
    rewrite fold_left_quantities, map_map. simpl. reflexivity. }
  intros [[Hok Hin] | Hok].
  - destruct (returned_row _ _ _ _ _ Hok Hin)
      as (v & rows & row & d & _ & _ & _ & _ & -> & _).
    apply Hshape.
  - unfold ProductRoute.GET in Hok.
    destruct (Prisma.product_findUnique db productId) as [[row |] | e];
      try discriminate.
    unfold success in Hok. simpl in Hok. injection Hok as <-.
    apply Hshape.
Qed.

(** ** The further properties of the search route on the sample data *)

Section SearchMoreAtSample.

Import SearchRoute.

Lemma atByron_two_found :
  Prisma.product_findMany (Sample.database Sample.twoHoodies false)
                          (whereClause Sample.atByronParams) (limit Sample.atByronParams * 2)
  = Ok Sample.twoHoodies.
Proof.
  rewrite (findMany_sample _ _ _ 20) by (simpl; lra). reflexivity.
Qed.

Lemma atByron_two_kept :
  filterBoolean
    (map (withDistance Sample.env Sample.atByronParams (userLat Sample.atByronParams)
                       (userLng Sample.atByronParams)) Sample.twoHoodies)
  = [ {| product := transformProduct Sample.env Sample.byronHoodie
                                     (Some (round1 0));
         itemDistance := 0 |};
      {| product := transformProduct Sample.env Sample.zipHoodie
                                     (Some (round1 0));
         itemDistance := 0 |} ].
Proof.
  unfold Sample.twoHoodies. simpl map.
  rewrite (withDistance_kept _ _ _ _ 0 Sample.byronHoodie);
    [| apply calculateDistance_same | simpl; lra | reflexivity].
  rewrite (withDistance_kept _ _ _ _ 0 Sample.zipHoodie);
    [| apply calculateDistance_same | simpl; lra | reflexivity].
  reflexivity.
Qed.

Lemma inStockFalse_validated :
  searchSchema (get Sample.inStockFalse) = Ok Sample.atByronParams.
Proof.
  apply searchSchema_intro; try reflexivity.
  - change (Zod.optional (Zod.coerce_number_min_max (-90) 90)
                         (JS.Str "-28.6434") = Ok (Some (-28.6434))).
    unfold Zod.optional.
    rewrite (coerce_number_min_max_in (-90) 90 (-28.6434));
      [reflexivity | reflexivity | lra].
  - change (Zod.optional (Zod.coerce_number_min_max (-180) 180)
                         (JS.Str "153.6148") = Ok (Some 153.6148)).
    unfold Zod.optional.
    rewrite (coerce_number_min_max_in (-180) 180 153.6148);
      [reflexivity | reflexivity | lra].
  - change (Zod.coerce_number_min_max 1 50 (JS.Str "5") = Ok 5).
    apply coerce_number_min_max_in; [reflexivity | lra].
  - change (Zod.coerce_number_min_max 1 100 (JS.Str "10") = Ok 10).
    apply coerce_number_min_max_in; [reflexivity | lra].
Qed.

Lemma queryOnly_rejected (db : Prisma.Client) :
  GET (collation := Sample.ordinal) Sample.env db Sample.queryOnly =
  (failure 400 "INVALID_PARAMS" "Invalid search parameters"
           (Some [ {| path := "radius"; issue := too_small |};
                   {| path := "limit"; issue := too_small |};
                   {| path := "category"; issue := invalid_type |} ]),
   db).
Proof.
  rewrite GET_configured by exact sample_configured.
  unfold search, searchSchema.
  change (get Sample.queryOnly "lat") with JS.Null.
  change (get Sample.queryOnly "lng") with JS.Null.
  change (get Sample.queryOnly "radius") with JS.Null.
  change (get Sample.queryOnly "limit") with JS.Null.
  rewrite !default_number_null by lra.
  rewrite !optional_number_null by lra.
  reflexivity.
Qed.

Lemma search_logs_what_it_returns_witness :
  exists data entry,
    body (fst (GET (collation := Sample.ordinal) Sample.env
                   (Sample.database Sample.twoHoodies false) Sample.atByron))
    = inl data /\
    Prisma.searches
      (snd (GET (collation := Sample.ordinal) Sample.env
                (Sample.database Sample.twoHoodies false) Sample.atByron))
    = [entry] /\
    search_results entry = 2%Z /\
    search_results entry = total (pagination data) /\
    search_query entry = "hoodie"%string.
Proof.
  edestruct (search_logs_what_it_returns (collation := Sample.ordinal)
               Sample.env (Sample.database Sample.twoHoodies false)
               (snd (GET (collation := Sample.ordinal) Sample.env
                         (Sample.database Sample.twoHoodies false)
                         Sample.atByron))
               Sample.atByron)
    as (entry & Hlog & Hn & Ht & Hq & _).
  - apply surjective_pairing.
  - rewrite atByron_two_response. reflexivity.
  - eexists. exists entry.
    split; [rewrite atByron_two_response; reflexivity |].
    split; [exact Hlog |]. split; [exact Hn |]. split; [exact Ht |].
    exact Hq.
Defined.

Lemma failed_search_records_nothing_witness :
  snd (GET (collation := Sample.ordinal) Sample.env
           (Sample.database Sample.hoodies true) Sample.noLocation)
  = Sample.database Sample.hoodies true.
Proof.
  eapply (failed_search_records_nothing (collation := Sample.ordinal)
            Sample.env (Sample.database Sample.hoodies true) _
            Sample.noLocation).
  - apply surjective_pairing.
  - rewrite GET_configured by exact sample_configured.
    unfold search. rewrite noLocation_validated. simpl bind.
    rewrite noLocation_found. reflexivity.
Defined.

Lemma pagination_block_witness :
  exists data,
    body (fst (GET (collation := Sample.ordinal) Sample.env
                   (Sample.database Sample.twoHoodies false) Sample.atByron))
    = inl data /\
    total (pagination data) = Z.of_nat (List.length (data_products data)) /\
    IZR (total (pagination data)) <= pageLimit (pagination data) /\
    1 <= pageLimit (pagination data) <= 100 /\
    page (pagination data) = 1%Z /\
    hasMore (pagination data) = false.
Proof.
  eexists. split.
  - rewrite atByron_two_response. reflexivity.
  - apply (pagination_block (collation := Sample.ordinal) Sample.env
             (Sample.database Sample.twoHoodies false) Sample.atByron).
    rewrite atByron_two_response. reflexivity.
Defined.

Lemma search_meta_is_valid_witness :
  exists data,
    body (fst (GET (collation := Sample.ordinal) Sample.env
                   (Sample.database Sample.twoHoodies false) Sample.atByron))
    = inl data /\
    let m := searchMeta data in
    (1 <= String.length (metaQuery m) <= 100)%nat /\
    1 <= metaRadius m <= 50 /\
    isValidCoordinate (latitude (location m)) (longitude (location m))
    = true /\
    executionTime m = (endTime Sample.env - startTime Sample.env)%Z.
Proof.
  eexists. split.
  - rewrite atByron_two_response. reflexivity.
  - apply (search_meta_is_valid (collation := Sample.ordinal) Sample.env
             (Sample.database Sample.twoHoodies false) Sample.atByron).
    rewrite atByron_two_response. reflexivity.
Defined.

Lemma invalid_params_whatever_the_store_witness :
  fst (GET (collation := Sample.ordinal) Sample.env Sample.unreachable
           Sample.queryOnly)
  = fst (GET (collation := Sample.ordinal) Sample.env
             (Sample.database Sample.hoodies false) Sample.queryOnly).
Proof.
  apply (invalid_params_whatever_the_store (collation := Sample.ordinal)).
  rewrite queryOnly_rejected. reflexivity.
Defined.

Lemma results_are_active_matches_witness :
  exists data p row,
    body (fst (GET (collation := Sample.ordinal) Sample.env
                   (Sample.database Sample.twoHoodies false) Sample.atByron))
    = inl data /\
    In p (data_products data) /\
    In row Sample.twoHoodies /\
    prod_id p = product_id row /\
    product_isActive row = true /\
    merchant_isActive (product_merchant row) = true.
Proof.
  edestruct (results_are_active_matches (collation := Sample.ordinal)
               Sample.env (Sample.database Sample.twoHoodies false)
               Sample.atByron)
    as (row & Hrow & Hid & _ & _ & Hact & Hmact & _).
  - rewrite atByron_two_response. reflexivity.
  - left. reflexivity.
  - eexists. eexists. exists row.
    split; [rewrite atByron_two_response; reflexivity |].
    split; [left; reflexivity |].
    split; [exact Hrow |]. split; [exact Hid |].
    split; [exact Hact | exact Hmact].
Defined.

(** The request that asks, in words, for out-of-stock products too: the
    sold-out hoodie is active and matches, and is skipped all the same. *)
Lemma inStockFalse_response :
  fst (GET (collation := Sample.ordinal) Sample.env
           (Sample.database [Sample.soldOut; Sample.byronHoodie] false)
           Sample.inStockFalse)
  = respond Sample.env Sample.atByronParams
      [transformProduct Sample.env Sample.byronHoodie (Some (round1 0))].
Proof.
  rewrite (GET_sample_rows (collation := Sample.ordinal)
             Sample.inStockFalse _ _ 10 inStockFalse_validated eq_refl).
  change (firstn (Z.to_nat (10 * 2)) (filter _ _))
    with [Sample.soldOut; Sample.byronHoodie].
  rewrite rank_skip by (apply withDistance_sold_out; reflexivity).
  rewrite (rank_single _ _ _ _ _
             {| product := transformProduct Sample.env Sample.byronHoodie
                                            (Some (round1 0));
                itemDistance := 0 |} 10).
  - reflexivity.
  - apply withDistance_kept;
      [apply calculateDistance_same | simpl; lra | reflexivity].
  - reflexivity.
  - lia.
Qed.

Lemma any_inStock_value_filters_witness :
  exists data,
    body (fst (GET (collation := Sample.ordinal) Sample.env
                   (Sample.database [Sample.soldOut; Sample.byronHoodie]
                                    false)
                   Sample.inStockFalse)) = inl data /\
    get Sample.inStockFalse "inStock" = JS.Str "false" /\
    Prisma.satisfies (whereClause Sample.atByronParams) Sample.soldOut
    = true /\
    totalStockOf Sample.soldOut = 0%Z /\
    map prod_id (data_products data) = ["p1"]%string /\
    forall p, In p (data_products data) -> totalStock p <> 0%Z.
Proof.
  eexists. split.
  - rewrite inStockFalse_response. reflexivity.
  - split; [reflexivity |]. split; [reflexivity |].
    split; [reflexivity |]. split; [reflexivity |].
    apply (any_inStock_value_filters (collation := Sample.ordinal)
             Sample.env
             (Sample.database [Sample.soldOut; Sample.byronHoodie] false)
             Sample.inStockFalse _ "false").
    + rewrite inStockFalse_response. reflexivity.
    + reflexivity.
    + reflexivity.
Defined.

Lemma ranking_keeps_every_survivor_witness :
  exists data,
    body (fst (GET (collation := Sample.ordinal) Sample.env
                   (Sample.database Sample.twoHoodies false) Sample.atByron))
    = inl data /\
    Permutation
      (data_products data)
      [ transformProduct Sample.env Sample.byronHoodie (Some (round1 0));
        transformProduct Sample.env Sample.zipHoodie (Some (round1 0)) ].
Proof.
  eexists. split.
  - rewrite atByron_two_response. reflexivity.
  - change [ transformProduct Sample.env Sample.byronHoodie (Some (round1 0));
             transformProduct Sample.env Sample.zipHoodie (Some (round1 0)) ]
      with (map product
              [ {| product := transformProduct Sample.env Sample.byronHoodie
                                               (Some (round1 0));
                   itemDistance := 0 |};
                {| product := transformProduct Sample.env Sample.zipHoodie
                                               (Some (round1 0));
                   itemDistance := 0 |} ]).
    rewrite <- atByron_two_kept.
    apply (ranking_keeps_every_survivor (collation := Sample.ordinal)
             Sample.env (Sample.database Sample.twoHoodies false)
             Sample.atByron _ Sample.atByronParams Sample.twoHoodies).
    + rewrite atByron_two_response. reflexivity.
    + exact atByron_validated.
    + exact atByron_two_found.
    + rewrite atByron_two_kept. simpl. lra.
Defined.

Lemma totalStock_is_sum_of_listed_quantities_witness :
  exists data p,
    body (fst (GET (collation := Sample.ordinal) Sample.env
                   (Sample.database Sample.twoHoodies false) Sample.atByron))
    = inl data /\
    In p (data_products data) /\
    totalStock p = 7%Z /\
    totalStock p =
    fold_right Z.add 0%Z
               (map (fun v => quantity (inventory v)) (variations p)).
Proof.
  eexists. eexists.
  split; [rewrite atByron_two_response; reflexivity |].
  split; [left; reflexivity |].
  split; [reflexivity |].
  eapply (totalStock_is_sum_of_listed_quantities
            (collation := Sample.ordinal)
            Sample.env (Sample.database Sample.twoHoodies false)
            Sample.atByron "p3").
  left. split; [rewrite atByron_two_response; reflexivity |].
  left. reflexivity.
Defined.

End SearchMoreAtSample.

(** ** More on the suggestions route *)

Section SuggestionsMore.

Import SuggestionsRoute.

(** Lower-casing keeps a string empty or non-empty. *)
Lemma nonEmpty_toLowerCase (s : string) :
  JS.nonEmpty (JS.toLowerCase s) = JS.nonEmpty s.
Proof.
  destruct s; reflexivity.
Qed.

(** The answer of the route to a query and a limit. *)
Lemma GET_query_limit (q lim : string) :
  GET [("query", q); ("limit", lim)]%string =
  match Zod.string_max 50 (JS.Str q),
        Zod.coerce_number_min_max 1 10 (JS.Str lim) with
  | Ok q', Ok l => success (JS.slice0 l (generateSearchSuggestions q'))
  | rq, rl =>
      failure 400 "INVALID_PARAMS" "Invalid parameters"
              (Some (Zod.at_ "query" rq ++ Zod.at_ "limit" rl))
  end.
Proof.
  unfold GET, suggestionsSchema.
  replace (paramsOf [("query", q); ("limit", lim)]%string "query"%string)
    with (JS.Str q)
    by (unfold paramsOf; simpl; destruct q; reflexivity).
  change (paramsOf [("query", q); ("limit", lim)]%string "limit"%string)
    with (JS.Str lim).
  unfold Zod.default.
  destruct (Zod.string_max 50 (JS.Str q));
    destruct (Zod.coerce_number_min_max 1 10 (JS.Str lim)); reflexivity.
Qed.

(** The suggestions ignore the case of the query: two queries of at most
    50 characters with the same lower-case form get the same answer, for
    any limit. *)
Theorem suggestions_ignore_case (q q' lim : string) :
  (String.length q <= 50)%nat ->
  (String.length q' <= 50)%nat ->
  JS.toLowerCase q = JS.toLowerCase q' ->
  GET [("query", q); ("limit", lim)]%string
  = GET [("query", q'); ("limit", lim)]%string.
Proof.
  intros Hq Hq' Hlow. rewrite !GET_query_limit.
  assert (Hne : JS.nonEmpty q = JS.nonEmpty q')
    by (rewrite <- (nonEmpty_toLowerCase q), Hlow;
        apply nonEmpty_toLowerCase).
  assert (Hgen : generateSearchSuggestions q = generateSearchSuggestions q').
  { unfold generateSearchSuggestions. rewrite Hne, Hlow. reflexivity. }
  unfold Zod.string_max.
  destruct (Nat.ltb_spec 50 (String.length q)); [lia |].
  destruct (Nat.ltb_spec 50 (String.length q')); [lia |]. simpl.
  destruct (Zod.coerce_number_min_max 1 10 (JS.Str lim));
    rewrite ?Hgen; reflexivity.
Qed.

Lemma suggestions_ignore_case_witness :
  GET [("query", "SHirt"); ("limit", "3")]%string
  = GET [("query", "shIRT"); ("limit", "3")]%string.
Proof.
  apply suggestions_ignore_case; [simpl; lia | simpl; lia | reflexivity].
Defined.

(** A request without [limit], or with a query of more than 50 characters,
    is answered [INVALID_PARAMS]: the default limit of 5 never applies. *)
Theorem suggestions_request_rejected (sp : URLSearchParams) :
  get sp "limit" = JS.Null \/
  (exists q, get sp "query" = JS.Str q /\ (50 < String.length q)%nat) ->
  exists issues,
    GET sp = failure 400 "INVALID_PARAMS" "Invalid parameters" (Some issues) /\
    issues <> [].
Proof.
  intros H. unfold GET, suggestionsSchema.
  destruct H as [Hlim | (q & Hq & Hlen)].
  - change (paramsOf sp "limit"%string) with (get sp "limit").
    rewrite Hlim, default_number_null by lra.
    destruct (Zod.string_max 50 _); simpl; eexists;
      (split; [reflexivity |]).
    + discriminate.
    + destruct (map _ e); discriminate.
  - replace (paramsOf sp "query"%string) with (JS.Str q).
    2:{ unfold paramsOf. simpl. rewrite Hq. simpl.
        destruct q; [simpl in Hlen; lia | reflexivity]. }
    unfold Zod.string_max.
    destruct (Nat.ltb_spec 50 (String.length q)); [| lia]. simpl.
    destruct (Zod.default _ _ _); eexists; (split; [reflexivity |]);
      discriminate.
Qed.

Lemma suggestions_request_rejected_witness :
  exists issues,
    GET [("query", "hood")]%string
    = failure 400 "INVALID_PARAMS" "Invalid parameters" (Some issues) /\
    issues <> [].
Proof.
  apply suggestions_request_rejected. left. reflexivity.
Defined.

End SuggestionsMore.

(** ** More on the product detail lookup *)

Section ProductDetailMore.

Import ProductRoute.

(** When the distance appears in the answer of a lookup. *)
Lemma reported_Some (lat lng : JS.value) (m : Merchant) (x : R) :
  reported (distanceTo lat lng m) = Some x <->
  exists la ln a b,
    lat = JS.Str la /\ lng = JS.Str ln /\
    JS.parseFloat la = JS.Finite a /\ JS.parseFloat ln = JS.Finite b /\
    calculateDistance a b (merchant_latitude m) (merchant_longitude m) <> 0 /\
    x = round1 (calculateDistance a b (merchant_latitude m)
                                  (merchant_longitude m)).
Proof.
  split.
  - unfold reported, distanceTo.
    destruct lat as [| | la | |]; try discriminate.
    destruct lng as [| | ln | |]; try discriminate.
    destruct (JS.nonEmpty la && JS.nonEmpty ln)%bool; [| discriminate].
    unfold calculateDistanceOf.
    destruct (JS.parseFloat la) as [| | a] eqn:Ha; simpl; try discriminate.
    destruct (JS.parseFloat ln) as [| | b] eqn:Hb; simpl; try discriminate.
    destruct (Req_dec_T _ 0) as [| Hd]; [discriminate |].
    intros [= <-]. exists la, ln, a, b. repeat split; auto.
  - intros (la & ln & a & b & -> & -> & Ha & Hb & Hd & ->).
    assert (Hla : JS.nonEmpty la = true)
      by (destruct la; [discriminate Ha | reflexivity]).
    assert (Hln : JS.nonEmpty ln = true)
      by (destruct ln; [discriminate Hb | reflexivity]).
    apply reported_nonzero; assumption.
Qed.

(** The lookup never rejects a coordinate: for an existing product it
    answers 200 whatever [lat] and [lng] are, in range or not.  A distance
    is in the answer only when both are strings that [parseFloat] reads as
    finite numbers, and it is then the distance from that coordinate to
    the merchant, which is not zero, rounded to one decimal; when [lat] or
    [lng] is absent or does not start with a number, no distance is in the
    answer. *)
Theorem detail_never_rejects_coordinates (env : Env) (db : Prisma.Client)
        (productId : string) (sp : URLSearchParams) (row : Product) :
  Prisma.product_findUnique db productId = Ok (Some row) ->
  exists p,
    GET env db productId sp = success p /\
    prod_id p = product_id row /\
    (forall x,
        distance (merchant p) = Some x ->
        exists la ln a b,
          get sp "lat" = JS.Str la /\ get sp "lng" = JS.Str ln /\
          JS.parseFloat la = JS.Finite a /\ JS.parseFloat ln = JS.Finite b /\
          let d := calculateDistance a b
                     (merchant_latitude (product_merchant row))
                     (merchant_longitude (product_merchant row)) in
          d <> 0 /\ x = round1 d) /\
    ((forall la, get sp "lat" = JS.Str la -> JS.parseFloat la = JS.NaN) \/
     (forall ln, get sp "lng" = JS.Str ln -> JS.parseFloat ln = JS.NaN) ->
     distance (merchant p) = None).
Proof.
  intros Hfind. unfold GET. rewrite Hfind.
  eexists. split; [reflexivity |]. split; [reflexivity |]. simpl. split.
  - intros x. apply reported_Some.
  - intros Hnan.
    destruct (reported _) as [x |] eqn:Hx; [| reflexivity].
    apply reported_Some in Hx.
    destruct Hx as (la & ln & a & b & Hla & Hln & Ha & Hb & _).
    destruct Hnan as [Hnan | Hnan].
    + rewrite (Hnan la Hla) in Ha. discriminate.
    + rewrite (Hnan ln Hln) in Hb. discriminate.
Qed.

(** A latitude of 100 degrees is taken as it is, and a longitude in words
    leaves the distance out. *)
Lemma detail_never_rejects_coordinates_witness :
  (exists p,
      GET Sample.env (Sample.database Sample.hoodies false) "p1"
          [("lat", "100"); ("lng", "153.6148")]%string = success p /\
      isValidCoordinate 100 153.6148 = false /\
      prod_id p = "p1"%string /\
      forall x,
        distance (merchant p) = Some x ->
        x = round1 (calculateDistance 100 153.6148 (-28.6434) 153.6148)) /\
  (exists p,
      GET Sample.env (Sample.database Sample.hoodies false) "p1"
          [("lat", "100"); ("lng", "east")]%string = success p /\
      distance (merchant p) = None).
Proof.
  split.
  - destruct (detail_never_rejects_coordinates
                Sample.env (Sample.database Sample.hoodies false) "p1"
                [("lat", "100"); ("lng", "153.6148")]%string
                Sample.byronHoodie eq_refl)
      as (p & HG & Hid & Hd & _).
    exists p. split; [exact HG |]. split.
    + unfold isValidCoordinate, Format.le.
      destruct (Rle_dec (-90) 100); [| lra].
      destruct (Rle_dec 100 90); [lra |]. reflexivity.
    + split; [exact Hid |]. intros x Hx.
      destruct (Hd x Hx) as (la & ln & a & b & Hla & Hln & Ha & Hb & _ & ->).
      injection Hla as <-. injection Hln as <-.
      change (JS.parseFloat "100") with (JS.Finite 100) in Ha.
      change (JS.parseFloat "153.6148") with (JS.Finite 153.6148) in Hb.
      injection Ha as <-. injection Hb as <-. reflexivity.
  - destruct (detail_never_rejects_coordinates
                Sample.env (Sample.database Sample.hoodies false) "p1"
                [("lat", "100"); ("lng", "east")]%string
                Sample.byronHoodie eq_refl)
      as (p & HG & _ & _ & Hnone).
    exists p. split; [exact HG |]. apply Hnone. right.
    intros ln Hln. injection Hln as <-. reflexivity.
Defined.

End ProductDetailMore.

(** ** The pages *)

Section Pages.

Context {collation : Collation} {toString : NumberToString}.

Lemma category_absent_rejected (env : Env) (db : Prisma.Client)
      (sp : URLSearchParams) :
  configured env ->
  get sp "category" = JS.Null ->
  exists issues,
    SearchRoute.GET env db sp =
    (failure 400 "INVALID_PARAMS" "Invalid search parameters" (Some issues),
     db).
Proof.
  intros Hc Hcat. rewrite GET_configured by exact Hc.
  unfold SearchRoute.search, SearchRoute.searchSchema. rewrite Hcat.
  change (Zod.optional Zod.string_ JS.Null) with
    (@Throw (list ZodIssueCode) (option string) [invalid_type]).
  destruct (Zod.string_min_max 1 100 _);
    destruct (Zod.optional (Zod.coerce_number_min_max (-90) 90) _);
    destruct (Zod.optional (Zod.coerce_number_min_max (-180) 180) _);
    destruct (Zod.default (JS.Num 10) _ _);
    destruct (Zod.default (JS.Num 20) _ _);
    destruct (Zod.default (JS.Bool true) _ _);
    simpl; eexists; reflexivity.
Qed.

Lemma home_page_sends_no_category (q : string) (location : option Coords) :
  get (HomePage.paramsOf q location) "category" = JS.Null.
Proof.
  destruct location; reflexivity.
Qed.

(** The home page never gets a product to show: the query string it builds
    has no [category], which the route's schema refuses, so every search it
    issues comes back as an error, the product list is emptied and nothing
    is logged. *)
Theorem home_page_search_always_fails (env : Env) (db : Prisma.Client)
        (st : HomePage.State) (searchQuery : string)
        (location : option Coords) :
  let result := HomePage.handleSearch env db st searchQuery location in
  HomePage.products (fst result) = [] /\
  snd result = db /\
  HomePage.loading (fst result) = false /\
  (configured env ->
   HomePage.error (fst result) = Some "Invalid search parameters"%string) /\
  (~ configured env ->
   HomePage.error (fst result)
   = Some "API not available during build"%string).
Proof.
  cbv zeta. unfold HomePage.handleSearch.
  destruct (GET_outcome env db (HomePage.paramsOf searchQuery location))
    as [(e & H & Hnc) | [Hc _]].
  - rewrite H. simpl.
    repeat split; try reflexivity; [intros Hc; contradiction |].
    intros _. unfold SearchRoute.GET in H.
    destruct (negb _) eqn:Hb.
    + injection H as <-. reflexivity.
    + exfalso. apply Hnc. unfold configured.
      destruct (DATABASE_URL env) as [u |]; [| discriminate].
      exists u. split; [reflexivity |].
      destruct (JS.nonEmpty u); [reflexivity | discriminate].
  - destruct (category_absent_rejected env db _ Hc
                (home_page_sends_no_category searchQuery location))
      as (issues & H).
    rewrite H. simpl.
    repeat split; try reflexivity. intros Hnc. contradiction.
Qed.

End Pages.

Section SearchBarPage.

Import SearchBar.

Lemma generateSearchSuggestions_short (q : string) :
  (List.length (generateSearchSuggestions q) <= 5)%nat.
Proof.
  rewrite generateSearchSuggestions_eq, length_firstn. lia.
Qed.

(** What the search bar holds once the request for its query has been
    answered: nothing for a query of at most one character, the generator's
    suggestions for a query of 2 to 50 characters, and whatever it held
    before for a longer query, which the route refuses. *)
Theorem search_bar_suggestions (st : State) :
  let n := String.length (query st) in
  suggestions (fetchSuggestions st) =
  (if (n <=? 1)%nat then []
   else if (n <=? 50)%nat then generateSearchSuggestions (query st)
        else suggestions st) /\
  showSuggestions (fetchSuggestions st) =
  (if (n <=? 1)%nat then false
   else if (n <=? 50)%nat then true
        else showSuggestions st).
Proof.
  cbv zeta. unfold fetchSuggestions.
  destruct (Nat.leb_spec (String.length (query st)) 1) as [Hshort | Hlong].
  - destruct (Nat.ltb_spec 1 (String.length (query st))); [lia |].
    split; reflexivity.
  - destruct (Nat.ltb_spec 1 (String.length (query st))); [| lia].
    rewrite GET_query_limit.
    rewrite (coerce_number_min_max_in 1 10 5);
      [| reflexivity | lra].
    unfold Zod.string_max.
    destruct (Nat.leb_spec (String.length (query st)) 50) as [Hok | Hbig].
    + destruct (Nat.ltb_spec 50 (String.length (query st))); [lia |].
      simpl. rewrite slice0_all.
      * split; reflexivity.
      * apply Rle_trans with (INR 5).
        -- apply le_INR. apply generateSearchSuggestions_short.
        -- simpl. lra.
    + destruct (Nat.ltb_spec 50 (String.length (query st))); [| lia].
      simpl. split; reflexivity.
Qed.

End SearchBarPage.

Section ProductPageClaims.

Import ProductPage.

(** The product page never has a distance to show: it asks for the product
    without coordinates, so the product it stores, when the request
    succeeds, is the one asked for and carries no distance. *)
Theorem product_page_has_no_distance (env : Env) (db : Prisma.Client)
        (st : State) (productId : string) :
  let st' := fetchProduct env db st productId in
  product st' = product st \/
  exists p,
    product st' = Some p /\
    prod_id p = productId /\
    distance (merchant p) = None.
Proof.
  cbv zeta. unfold fetchProduct.
  destruct (JS.nonEmpty productId); [| left; reflexivity].
  unfold ProductRoute.GET, Prisma.product_findUnique.
  destruct (Prisma.readFails db); [left; reflexivity |].
  destruct (find _ (Prisma.products db)) as [row |] eqn:Hfind;
    [| left; reflexivity].
  right. eexists. simpl. split; [reflexivity |].
  split; [| reflexivity].
  apply find_some in Hfind. apply String.eqb_eq. apply Hfind.
Qed.

End ProductPageClaims.

(** ** Coordinates out of range *)

Section CoordinateValidation.

Import SearchRoute.
Context {collation : Collation}.

Lemma coerce_number_out_of_range (lo hi r : R) (v : JS.value) :
  JS.Number v = JS.Finite r -> lo <= hi -> r < lo \/ hi < r ->
  exists code,
    Zod.coerce_number_min_max lo hi v = Throw [code] /\
    (code = too_small \/ code = too_big).
Proof.
  intros Hv Hb Hr. unfold Zod.coerce_number_min_max. rewrite Hv.
  unfold JS.ltConst, JS.gtConst.
  destruct (Rlt_dec r lo), (Rlt_dec hi r); try lra; simpl;
    eexists; split; try reflexivity; auto.
Qed.

(** A supplied coordinate that [isValidCoordinate] refuses is refused by
    the search route too: the request is answered [INVALID_PARAMS] with an
    issue on [lat] or [lng], and the fallback coordinate is not used. *)
Theorem out_of_range_coordinate_rejected (env : Env) (db : Prisma.Client)
        (sp : URLSearchParams) (la ln : string) (a b : R) :
  configured env ->
  get sp "lat" = JS.Str la -> get sp "lng" = JS.Str ln ->
  JS.StringToNumber la = JS.Finite a ->
  JS.StringToNumber ln = JS.Finite b ->
  isValidCoordinate a b = false ->
  exists issues code,
    GET env db sp =
    (failure 400 "INVALID_PARAMS" "Invalid search parameters" (Some issues),
     db) /\
    (In {| path := "lat"; issue := code |} issues \/
     In {| path := "lng"; issue := code |} issues).
Proof.
  intros Hc Hlat Hlng Ha Hb Hbad. rewrite GET_configured by exact Hc.
  unfold search, searchSchema. rewrite Hlat, Hlng.
  assert (Hcase : (a < -90 \/ 90 < a) \/ (b < -180 \/ 180 < b)).
  { unfold isValidCoordinate, Format.le in Hbad.
    destruct (Rle_dec (-90) a); [| lra].
    destruct (Rle_dec a 90); [| lra].
    destruct (Rle_dec (-180) b); [| lra].
    destruct (Rle_dec b 180); [discriminate | lra]. }
  destruct Hcase as [Hout | Hout].
  - destruct (coerce_number_out_of_range (-90) 90 a (JS.Str la) Ha
                ltac:(lra) Hout) as (code & Hcode & _).
    assert (E : Zod.optional (Zod.coerce_number_min_max (-90) 90) (JS.Str la)
                = Throw [code])
      by (unfold Zod.optional; rewrite Hcode; reflexivity).
    rewrite E.
    destruct (Zod.string_min_max 1 100 _);
      destruct (Zod.optional (Zod.coerce_number_min_max (-180) 180) _);
      destruct (Zod.default (JS.Num 10) _ _);
      destruct (Zod.default (JS.Num 20) _ _);
      destruct (Zod.optional Zod.string_ _);
      destruct (Zod.default (JS.Bool true) _ _);
      simpl; eexists; exists code; (split; [reflexivity |]); left;
      repeat rewrite in_app_iff; simpl; tauto.
  - destruct (coerce_number_out_of_range (-180) 180 b (JS.Str ln) Hb
                ltac:(lra) Hout) as (code & Hcode & _).
    assert (E : Zod.optional (Zod.coerce_number_min_max (-180) 180)
                             (JS.Str ln) = Throw [code])
      by (unfold Zod.optional; rewrite Hcode; reflexivity).
    rewrite E.
    destruct (Zod.string_min_max 1 100 _);
      destruct (Zod.optional (Zod.coerce_number_min_max (-90) 90) _);
      destruct (Zod.default (JS.Num 10) _ _);
      destruct (Zod.default (JS.Num 20) _ _);
      destruct (Zod.optional Zod.string_ _);
      destruct (Zod.default (JS.Bool true) _ _);
      simpl; eexists; exists code; (split; [reflexivity |]); right;
      repeat rewrite in_app_iff; simpl; tauto.
Qed.

End CoordinateValidation.

Section MoreAtSample.

Import SearchRoute.

Lemma out_of_range_coordinate_rejected_witness :
  exists issues code,
    GET (collation := Sample.ordinal) Sample.env
        (Sample.database Sample.hoodies false)
        [("query", "hoodie"); ("lat", "100"); ("lng", "153.6148");
         ("radius", "5"); ("limit", "10"); ("category", "clothing")]%string
    = (failure 400 "INVALID_PARAMS" "Invalid search parameters"
               (Some issues),
       Sample.database Sample.hoodies false) /\
    (In {| path := "lat"; issue := code |} issues \/
     In {| path := "lng"; issue := code |} issues).
Proof.
  apply (out_of_range_coordinate_rejected (collation := Sample.ordinal)
           Sample.env (Sample.database Sample.hoodies false) _
           "100" "153.6148" 100 153.6148 sample_configured);
    try reflexivity.
  unfold isValidCoordinate, Format.le.
  destruct (Rle_dec (-90) 100); [| lra].
  destruct (Rle_dec 100 90); [lra |]. reflexivity.
Defined.

Lemma fetched_row_in_radius_is_returned_witness :
  exists data,
    body (fst (GET (collation := Sample.ordinal) Sample.env
                   (Sample.database Sample.twoHoodies false) Sample.atByron))
    = inl data /\
    In (transformProduct Sample.env Sample.zipHoodie (Some (round1 0)))
       (data_products data).
Proof.
  eexists. split.
  - rewrite atByron_two_response. reflexivity.
  - rewrite <- (calculateDistance_same (-28.6434) 153.6148) at 1.
    apply (fetched_row_in_radius_is_returned (collation := Sample.ordinal)
             Sample.env (Sample.database Sample.twoHoodies false)
             Sample.atByron _ Sample.atByronParams Sample.twoHoodies
             Sample.zipHoodie).
    + rewrite atByron_two_response. reflexivity.
    + exact atByron_validated.
    + exact atByron_two_found.
    + rewrite atByron_two_kept. simpl. lra.
    + right. left. reflexivity.
    + rewrite calculateDistance_same. simpl. lra.
    + right. discriminate.
Defined.

End MoreAtSample.
